(** * Prompt library (src/src/app.jsx): the App component as a state machine

    The component keeps ten pieces of React state, two effects (Firebase
    initialisation, Firestore subscription), three asynchronous mutation
    handlers and a render function.  The development below embeds them as
    functions over a record of the state; an asynchronous handler is split
    at its [await] into the part that runs at the click and the part that
    runs when the promise settles, so that other events may come between. *)

From Stdlib Require Import ZArith String Ascii List Lia Permutation.
From stdpp Require Import base option list gmap strings pretty sorting.

(** ** JavaScript values *)

(** The values a prompt object may hold: what Firestore hands back for a
    string, a timestamp or a null field, plus [undefined] for a field that
    is absent.  Strings are sequences of code units; the model covers the
    code units below 256 (one [ascii] each).  A [Timestamp] is an object:
    [ref] is its identity, which is all that [===] looks at, and [millis] is
    what [toMillis()] returns.  The program stamps [new Date()], a whole
    number of milliseconds far below 2^53, so [millis] is an integer and the
    subtraction of two of them is exact. *)
Inductive value :=
| VUndefined
| VNull
| VStr (s : string)
| VTimestamp (ref : nat) (millis : Z).

#[global] Instance value_eq_dec : EqDecision value.
Proof. solve_decision. Defined.

(** A JavaScript number as far as the sort comparator produces one. *)
Inductive number :=
| Num (z : Z)
| NaN.

(** Truthiness, as [!x] and [x && ...] use it. *)
Definition truthy (v : value) : bool :=
  match v with
  | VUndefined | VNull => false
  | VStr s => negb (String.eqb s "")
  | VTimestamp _ _ => true
  end.

(** [Timestamp.prototype.toString]. *)
Definition timestampToString (millis : Z) : string :=
  "Timestamp(seconds=" +:+ pretty (millis `div` 1000)%Z +:+
  ", nanoseconds=" +:+ pretty ((millis `mod` 1000) * 1000000)%Z +:+ ")".

(** The string a template literal [`${v}`] puts in place of [v]. *)
Definition toString (v : value) : string :=
  match v with
  | VUndefined => "undefined"
  | VNull => "null"
  | VStr s => s
  | VTimestamp _ millis => timestampToString millis
  end.

(** [a === b]: strings by content, objects by identity. *)
Definition strict_eq (a b : value) : bool :=
  match a, b with
  | VUndefined, VUndefined => true
  | VNull, VNull => true
  | VStr s, VStr t => String.eqb s t
  | VTimestamp r _, VTimestamp r' _ => Nat.eqb r r'
  | _, _ => false
  end.

(** ** [String.prototype.trim] *)

(** White space and line terminators among the code units below 256:
    TAB, LF, VT, FF, CR, SP and NBSP. *)
Definition is_ws (c : ascii) : bool :=
  match nat_of_ascii c with
  | 9 | 10 | 11 | 12 | 13 | 32 | 160 => true
  | _ => false
  end.

Fixpoint trimStart (s : string) : string :=
  match s with
  | EmptyString => EmptyString
  | String c s' => if is_ws c then trimStart s' else s
  end.

Fixpoint trimEnd (s : string) : string :=
  match s with
  | EmptyString => EmptyString
  | String c s' =>
      match trimEnd s' with
      | EmptyString => if is_ws c then EmptyString else String c EmptyString
      | r => String c r
      end
  end.

Definition trim (s : string) : string := trimEnd (trimStart s).

(** Empty or made of white space only. *)
Fixpoint blank (s : string) : bool :=
  match s with
  | EmptyString => true
  | String c s' => is_ws c && blank s'
  end.

(** ** Document paths *)

Record config := {
  firebase_config : bool;          (* typeof __firebase_config !== 'undefined' *)
  app_id : option string;          (* __app_id, when the deployment defines it *)
  initial_auth_token : option string
}.

(** [typeof __app_id !== 'undefined' ? __app_id : 'default-app-id'] *)
Definition appId (cfg : config) : string :=
  match app_id cfg with
  | Some a => a
  | None => "default-app-id"
  end.

(** [`/artifacts/${appId}/users/${userId}/prompts`] *)
Definition collectionPath (cfg : config) (userId : string) : string :=
  "/artifacts/" +:+ appId cfg +:+ "/users/" +:+ userId +:+ "/prompts".

(** [`/artifacts/${appId}/users/${userId}/prompts/${promptId}`] *)
Definition docPath (cfg : config) (userId : string) (promptId : value) : string :=
  "/artifacts/" +:+ appId cfg +:+ "/users/" +:+ userId +:+ "/prompts/" +:+
  toString promptId.

(** The path of the specification, without the leading slash. *)
Definition specPath (appId userId : string) : string :=
  "artifacts/" +:+ appId +:+ "/users/" +:+ userId +:+ "/prompts".

(** How Firestore reads a path string ([ResourcePath.fromString]): it
    refuses a string that contains [//], splits at [/] and drops the empty
    pieces. *)
Fixpoint split_slash (s : string) : list string :=
  match s with
  | EmptyString => [EmptyString]
  | String c s' =>
      if Ascii.eqb c "/" then EmptyString :: split_slash s'
      else match split_slash s' with
           | seg :: segs => String c seg :: segs
           | [] => [String c EmptyString]
           end
  end.

Fixpoint has_double_slash (s : string) : bool :=
  match s with
  | String c ((String c' _) as s') =>
      (Ascii.eqb c "/" && Ascii.eqb c' "/") || has_double_slash s'
  | _ => false
  end.

Definition nonempty (s : string) : bool := negb (String.eqb s "").

Definition fromString (path : string) : option (list string) :=
  if has_double_slash path then None
  else Some (filter (λ seg, nonempty seg = true) (split_slash path)).

(** [collection(db, path)] wants an odd number of segments, [doc(db, path)]
    an even, positive one. *)
Definition collectionRef (path : string) : option (list string) :=
  segs ← fromString path;
  if Nat.odd (length segs) then Some segs else None.

Definition docRef (path : string) : option (list string) :=
  segs ← fromString path;
  if Nat.even (length segs) && negb (Nat.eqb (length segs) 0) then Some segs else None.

(** One identifier, usable as a single path segment. *)
Fixpoint no_slash (s : string) : bool :=
  match s with
  | EmptyString => true
  | String c s' => negb (Ascii.eqb c "/") && no_slash s'
  end.

Definition segment (s : string) : bool := nonempty s && no_slash s.

Definition leading_slash (s : string) : bool :=
  match s with
  | String c _ => Ascii.eqb c "/"
  | EmptyString => false
  end.

(** The path string made of the given segments, a slash before each. *)
Definition joinPath (segs : list string) : string :=
  foldr (λ seg rest, "/" +:+ seg +:+ rest) "" segs.

(** ** Prompt objects and snapshot documents *)

(** A JavaScript object used as a record of named fields. *)
Abbreviation object := (gmap string value).

(** Property access [o.k]: [undefined] when the field is absent. *)
Definition get (o : object) (k : string) : value := default VUndefined (o !! k).

(** [{...target, ...src}]: the properties of [src] are copied last and
    replace those of [target] that have the same name. *)
Definition spread (src target : object) : object := src ∪ target.

(** A document of a query snapshot: [doc.id] and [doc.data()]. *)
Record doc := Doc { doc_id : string; doc_data : gmap string value }.

(** [doc => ({ id: doc.id, ...doc.data() })] *)
Definition promptOf (d : doc) : object :=
  spread (doc_data d) {[ "id" := VStr (doc_id d) ]}.

(** ** The sort of the snapshot callback *)

(** [v?.toMillis()] as an operand of [-]: [undefined] (from a missing or
    null [v]) converts to [NaN]; a string has no [toMillis], and calling it
    throws [TypeError] (here [None]). *)
Definition optMillis (v : value) : option number :=
  match v with
  | VUndefined | VNull => Some NaN
  | VTimestamp _ millis => Some (Num millis)
  | VStr _ => None
  end.

Definition minus (x y : number) : number :=
  match x, y with
  | Num a, Num b => Num (a - b)
  | _, _ => NaN
  end.

(** [(a, b) => b.createdAt?.toMillis() - a.createdAt?.toMillis()] *)
Definition compareFn (a b : object) : option number :=
  x ← optMillis (get b "createdAt");
  y ← optMillis (get a "createdAt");
  Some (minus x y).

(** [SortCompare] of ECMAScript: the comparator's result, [NaN] read as 0. *)
Definition sortCompare (a b : object) : option Z :=
  v ← compareFn a b;
  Some (match v with Num z => z | NaN => 0%Z end).

(** [Array.prototype.sort(compareFn)].  ECMAScript asks for a stable sort
    and leaves the order to the engine when the comparator is not a
    consistent ordering.  The model is the stable insertion sort: each
    element moves left past the elements that [sortCompare] puts after it,
    and stops at the first one that it does not.  When the comparator is
    consistent, any conforming engine returns this same array.  [acc] is
    the sorted part, last element first. *)
Fixpoint insertBack (x : object) (acc : list object) : option (list object) :=
  match acc with
  | [] => Some [x]
  | y :: acc' =>
      v ← sortCompare y x;
      if (0 <? v)%Z then r ← insertBack x acc'; Some (y :: r)
      else Some (x :: acc)
  end.

Fixpoint sortFrom (acc l : list object) : option (list object) :=
  match l with
  | [] => Some (rev acc)
  | x :: l' => acc' ← insertBack x acc; sortFrom acc' l'
  end.

Definition sort (l : list object) : option (list object) := sortFrom [] l.

(** The [createdAt] of a prompt when it is a timestamp. *)
Definition createdAtMillis (p : object) : option Z :=
  match get p "createdAt" with
  | VTimestamp _ millis => Some millis
  | _ => None
  end.

(** Sorted by [createdAt], latest first: of two prompts that both carry a
    timestamp, the earlier in the list is not the older one. *)
Definition newerOrEqual (p q : object) : Prop :=
  match createdAtMillis p, createdAtMillis q with
  | Some a, Some b => (b ≤ a)%Z
  | _, _ => True
  end.

Definition sortedDescending (l : list object) : Prop := StronglySorted newerOrEqual l.

Definition timestamped (p : object) : Prop := is_Some (createdAtMillis p).

(** A [createdAt] that the comparator can read: a timestamp, null, or absent. *)
Definition readable (p : object) : Prop := is_Some (optMillis (get p "createdAt")).

(** ** The state of the component *)

Inductive handle := SdkHandle.

#[global] Instance handle_eq_dec : EqDecision handle.
Proof. solve_decision. Defined.

Record State := {
  isLoading : bool;
  error : option string;
  auth : option handle;
  db : option handle;
  userId : option string;
  prompts : list object;
  newPrompt : string;
  isSubmitting : bool;
  editingPromptId : value;
  editingPromptText : value;
  isInitialized : bool             (* the ref isInitialized.current *)
}.

(** [useState] initial values. *)
Definition initialState : State := {|
  isLoading := true; error := None; auth := None; db := None; userId := None;
  prompts := []; newPrompt := ""; isSubmitting := false;
  editingPromptId := VNull; editingPromptText := VStr "";
  isInitialized := false |}.

Definition setIsLoading (b : bool) (s : State) : State := {|
  isLoading := b; error := error s; auth := auth s; db := db s;
  userId := userId s; prompts := prompts s; newPrompt := newPrompt s;
  isSubmitting := isSubmitting s; editingPromptId := editingPromptId s;
  editingPromptText := editingPromptText s; isInitialized := isInitialized s |}.

Definition setError (e : option string) (s : State) : State := {|
  isLoading := isLoading s; error := e; auth := auth s; db := db s;
  userId := userId s; prompts := prompts s; newPrompt := newPrompt s;
  isSubmitting := isSubmitting s; editingPromptId := editingPromptId s;
  editingPromptText := editingPromptText s; isInitialized := isInitialized s |}.

Definition setAuth (h : option handle) (s : State) : State := {|
  isLoading := isLoading s; error := error s; auth := h; db := db s;
  userId := userId s; prompts := prompts s; newPrompt := newPrompt s;
  isSubmitting := isSubmitting s; editingPromptId := editingPromptId s;
  editingPromptText := editingPromptText s; isInitialized := isInitialized s |}.

Definition setDb (h : option handle) (s : State) : State := {|
  isLoading := isLoading s; error := error s; auth := auth s; db := h;
  userId := userId s; prompts := prompts s; newPrompt := newPrompt s;
  isSubmitting := isSubmitting s; editingPromptId := editingPromptId s;
  editingPromptText := editingPromptText s; isInitialized := isInitialized s |}.

Definition setUserId (u : option string) (s : State) : State := {|
  isLoading := isLoading s; error := error s; auth := auth s; db := db s;
  userId := u; prompts := prompts s; newPrompt := newPrompt s;
  isSubmitting := isSubmitting s; editingPromptId := editingPromptId s;
  editingPromptText := editingPromptText s; isInitialized := isInitialized s |}.

Definition setPrompts (l : list object) (s : State) : State := {|
  isLoading := isLoading s; error := error s; auth := auth s; db := db s;
  userId := userId s; prompts := l; newPrompt := newPrompt s;
  isSubmitting := isSubmitting s; editingPromptId := editingPromptId s;
  editingPromptText := editingPromptText s; isInitialized := isInitialized s |}.

Definition setNewPrompt (t : string) (s : State) : State := {|
  isLoading := isLoading s; error := error s; auth := auth s; db := db s;
  userId := userId s; prompts := prompts s; newPrompt := t;
  isSubmitting := isSubmitting s; editingPromptId := editingPromptId s;
  editingPromptText := editingPromptText s; isInitialized := isInitialized s |}.

Definition setIsSubmitting (b : bool) (s : State) : State := {|
  isLoading := isLoading s; error := error s; auth := auth s; db := db s;
  userId := userId s; prompts := prompts s; newPrompt := newPrompt s;
  isSubmitting := b; editingPromptId := editingPromptId s;
  editingPromptText := editingPromptText s; isInitialized := isInitialized s |}.

Definition setEditingPromptId (v : value) (s : State) : State := {|
  isLoading := isLoading s; error := error s; auth := auth s; db := db s;
  userId := userId s; prompts := prompts s; newPrompt := newPrompt s;
  isSubmitting := isSubmitting s; editingPromptId := v;
  editingPromptText := editingPromptText s; isInitialized := isInitialized s |}.

Definition setEditingPromptText (v : value) (s : State) : State := {|
  isLoading := isLoading s; error := error s; auth := auth s; db := db s;
  userId := userId s; prompts := prompts s; newPrompt := newPrompt s;
  isSubmitting := isSubmitting s; editingPromptId := editingPromptId s;
  editingPromptText := v; isInitialized := isInitialized s |}.

Definition setInitialized (b : bool) (s : State) : State := {|
  isLoading := isLoading s; error := error s; auth := auth s; db := db s;
  userId := userId s; prompts := prompts s; newPrompt := newPrompt s;
  isSubmitting := isSubmitting s; editingPromptId := editingPromptId s;
  editingPromptText := editingPromptText s; isInitialized := b |}.

(** ** Requests to the document store *)

(** A field as the store keeps it; a [Date] that is written is kept as a
    timestamp. *)
Inductive data :=
| DNull
| DStr (s : string)
| DTimestamp (millis : Z).

#[global] Instance data_eq_dec : EqDecision data.
Proof. solve_decision. Defined.

(** [addDoc(collection(db, path), fields)], [updateDoc(doc(db, path), fields)]
    and [deleteDoc(doc(db, path))]. *)
Inductive request :=
| AddDoc (path : string) (fields : gmap string data)
| UpdateDoc (path : string) (fields : gmap string data)
| DeleteDoc (path : string).

Inductive mutation := Add | Update | Delete.

(** How an awaited request ends.  An exception of [collection] or [doc] is
    raised inside the same [try] and ends in the same [catch]. *)
Inductive outcome := Resolved | Rejected.

(** What a handler has done when it reaches its [await], if it does. *)
Inductive started :=
| Returned                               (* the guard returned: nothing done *)
| Threw                                  (* TypeError before the try block *)
| Awaiting (s : State) (r : request).    (* state so far, request issued *)

(** [db && userId], with the user id when both are there. *)
Definition ready (s : State) : option string :=
  match db s, userId s with
  | Some _, Some uid => if nonempty uid then Some uid else None
  | _, _ => None
  end.

(** ** Effects *)

(** The first effect: Firebase initialisation.  [sdk_ok] tells whether
    [initializeApp], [getAuth] and [getFirestore] return without an
    exception. *)
Definition initialize (cfg : config) (sdk_ok : bool) (s : State) : State :=
  if isInitialized s then s
  else
    let s := setInitialized true s in
    if firebase_config cfg && sdk_ok then setDb (Some SdkHandle) (setAuth (Some SdkHandle) s)
    else setIsLoading false
           (setError (Some "Could not connect to the backend. Please check configuration.") s).

(** The [onAuthStateChanged] callback with a user, and the [catch] of a
    sign-in that failed. *)
Definition onAuthUser (uid : string) (s : State) : State := setUserId (Some uid) s.

Definition onAuthError (s : State) : State :=
  setError (Some "Failed to authenticate. Please refresh the page.") s.

(** The second effect: the subscription.  The result carries the path it
    subscribes to, when it does. *)
Definition subscribe (cfg : config) (s : State) : State * option string :=
  match ready s with
  | None => (s, None)
  | Some uid => (setIsLoading true s, Some (collectionPath cfg uid))
  end.

(** The two callbacks given to [onSnapshot].  [None]: the callback threw
    (in the sort) before any setter ran. *)
Definition onSnapshotNext (docs : list doc) (s : State) : option State :=
  promptsData ← sort (promptOf <$> docs);
  Some (setIsLoading false (setPrompts promptsData s)).

Definition onSnapshotError (s : State) : State :=
  setIsLoading false
    (setError (Some "Failed to load prompts. Please check permissions and network.") s).

(** ** Mutation handlers *)

(** [handleAddPrompt] up to its [await]; [now] is the reading of the clock
    that [new Date()] takes. *)
Definition handleAddPrompt (cfg : config) (now : Z) (s : State) : started :=
  if negb (nonempty (trim (newPrompt s))) then Returned
  else match ready s with
       | None => Returned
       | Some uid =>
           Awaiting (setIsSubmitting true s)
             (AddDoc (collectionPath cfg uid)
                (<[ "text" := DStr (newPrompt s) ]> {[ "createdAt" := DTimestamp now ]}))
       end.

(** [handleAddPrompt] after the [await]: the rest of [try], or [catch],
    then [finally]. *)
Definition addSettled (o : outcome) (s : State) : State :=
  setIsSubmitting false
    match o with
    | Resolved => setNewPrompt "" s
    | Rejected => setError (Some "Failed to save prompt.") s
    end.

Definition handleDeletePrompt (cfg : config) (promptId : value) (s : State) : started :=
  match ready s with
  | None => Returned
  | Some uid =>
      if truthy promptId then Awaiting s (DeleteDoc (docPath cfg uid promptId))
      else Returned
  end.

Definition deleteSettled (o : outcome) (s : State) : State :=
  match o with
  | Resolved => s
  | Rejected => setError (Some "Failed to delete prompt.") s
  end.

Definition handleUpdatePrompt (cfg : config) (s : State) : started :=
  match editingPromptText s with
  | VStr text =>
      if negb (nonempty (trim text)) then Returned
      else match ready s with
           | None => Returned
           | Some uid =>
               if truthy (editingPromptId s) then
                 Awaiting s (UpdateDoc (docPath cfg uid (editingPromptId s))
                               {[ "text" := DStr text ]})
               else Returned
           end
  | _ => Threw                 (* [editingPromptText.trim] is not a function *)
  end.

Definition updateSettled (o : outcome) (s : State) : State :=
  match o with
  | Resolved => setEditingPromptText (VStr "") (setEditingPromptId VNull s)
  | Rejected => setError (Some "Failed to update prompt.") s
  end.

Definition startEditing (prompt : object) (s : State) : State :=
  setEditingPromptText (get prompt "text") (setEditingPromptId (get prompt "id") s).

(** The Cancel button: [() => setEditingPromptId(null)]. *)
Definition cancelEditing (s : State) : State := setEditingPromptId VNull s.

(** The message each [catch] block of a mutation handler sets. *)
Definition failureMessage (m : mutation) : string :=
  match m with
  | Add => "Failed to save prompt."
  | Update => "Failed to update prompt."
  | Delete => "Failed to delete prompt."
  end.

(** ** Render *)

(** One entry of the list: the edit form with its draft, or the prompt with
    its Edit and Delete buttons.  The React key is [prompt.id]. *)
Inductive row :=
| EditForm (prompt : object) (draft : value)
| PromptRow (prompt : object).

Record mainView := {
  shownUserId : string;
  textareaValue : string;
  textareaDisabled : bool;
  addDisabled : bool;
  rows : list row
}.

Inductive view :=
| ErrorView (message : string)
| LoadingView
| MainView (m : mainView).

(** [key={prompt.id}] *)
Definition rowKey (r : row) : value :=
  match r with
  | EditForm prompt _ | PromptRow prompt => get prompt "id"
  end.

Definition renderRow (s : State) (prompt : object) : row :=
  if strict_eq (editingPromptId s) (get prompt "id")
  then EditForm prompt (editingPromptText s)
  else PromptRow prompt.

(** [if (isLoading || !userId)]: the spinner, else the library. *)
Definition renderLibrary (s : State) : view :=
  match userId s with
  | Some uid =>
      if isLoading s || negb (nonempty uid) then LoadingView
      else MainView {| shownUserId := uid; textareaValue := newPrompt s;
                       textareaDisabled := isSubmitting s;
                       addDisabled := isSubmitting s || negb (nonempty (trim (newPrompt s)));
                       rows := renderRow s <$> prompts s |}
  | None => LoadingView
  end.

(** [if (error)] comes first: any error message takes the whole screen. *)
Definition render (s : State) : view :=
  match error s with
  | Some e => if nonempty e then ErrorView e else renderLibrary s
  | None => renderLibrary s
  end.

(** ** What the user can do on a view *)

Inductive intent :=
| TypeNew (text : string)            (* onChange of the new-prompt textarea *)
| SubmitAdd (now : Z)                (* the Add Prompt button *)
| StartEdit (prompt : object)        (* the Edit button of a prompt *)
| DeletePrompt (promptId : value)    (* the Delete button of a prompt *)
| TypeEdit (text : string)           (* onChange of the edit textarea *)
| CancelEdit                         (* the Cancel button of the edit form *)
| SubmitUpdate.                      (* the Save button of the edit form *)

Definition isEditForm (r : row) : bool :=
  match r with
  | EditForm _ _ => true
  | PromptRow _ => false
  end.

Definition isRowOf (p : object) (r : row) : bool :=
  match r with
  | PromptRow q => bool_decide (q = p)
  | EditForm _ _ => false
  end.

Definition hasDeleteFor (promptId : value) (r : row) : bool :=
  match r with
  | PromptRow q => bool_decide (get q "id" = promptId)
  | EditForm _ _ => false
  end.

(** The controls that a view puts on the screen. *)
Definition offered (v : view) (i : intent) : bool :=
  match v with
  | ErrorView _ | LoadingView => false
  | MainView m =>
      match i with
      | TypeNew _ => negb (textareaDisabled m)
      | SubmitAdd _ => negb (addDisabled m)
      | StartEdit p => existsb (isRowOf p) (rows m)
      | DeletePrompt promptId => existsb (hasDeleteFor promptId) (rows m)
      | TypeEdit _ | CancelEdit | SubmitUpdate => existsb isEditForm (rows m)
      end
  end.

(** ** The component and its environment, step by step *)

Inductive event :=
| Mount (sdk_ok : bool)              (* first render: the effects run *)
| AuthUser (uid : string)            (* onAuthStateChanged with a user *)
| AuthFailed                         (* the sign-in was rejected *)
| SnapshotNext (docs : list doc)     (* the subscription delivers a snapshot *)
| SnapshotError                      (* the subscription fails *)
| Act (i : intent)                   (* the user uses a control *)
| Settled (m : mutation) (o : outcome).   (* an awaited request ends *)

(** The state, the path of the live subscription, the requests awaited. *)
Record system := {
  ui : State;
  subscription : option string;
  inflight : list request
}.

Definition kindOf (r : request) : mutation :=
  match r with
  | AddDoc _ _ => Add
  | UpdateDoc _ _ => Update
  | DeleteDoc _ => Delete
  end.

Definition sameKind (m : mutation) (r : request) : bool :=
  match m, kindOf r with
  | Add, Add | Update, Update | Delete, Delete => true
  | _, _ => false
  end.

(** The awaited requests without the oldest one of kind [m]. *)
Fixpoint takeRequest (m : mutation) (l : list request) : option (list request) :=
  match l with
  | [] => None
  | r :: l' => if sameKind m r then Some l' else (r ::.) <$> takeRequest m l'
  end.

Definition issued (s : State) (r : started) : State * list request :=
  match r with
  | Awaiting s' q => (s', [q])
  | Returned | Threw => (s, [])
  end.

Definition act (cfg : config) (i : intent) (s : State) : State * list request :=
  match i with
  | TypeNew text => (setNewPrompt text s, [])
  | SubmitAdd now => issued s (handleAddPrompt cfg now s)
  | StartEdit prompt => (startEditing prompt s, [])
  | DeletePrompt promptId => issued s (handleDeletePrompt cfg promptId s)
  | TypeEdit text => (setEditingPromptText (VStr text) s, [])
  | CancelEdit => (cancelEditing s, [])
  | SubmitUpdate => issued s (handleUpdatePrompt cfg s)
  end.

Definition settle (m : mutation) (o : outcome) (s : State) : State :=
  match m with
  | Add => addSettled o s
  | Update => updateSettled o s
  | Delete => deleteSettled o s
  end.

(** After a state change React runs the subscription effect again when one
    of its dependencies [db], [userId] has changed: the old subscription is
    released and [subscribe] runs on the new state. *)
Definition commit (cfg : config) (y : system) (after : State) (new : list request) : system :=
  if bool_decide (db (ui y) = db after ∧ userId (ui y) = userId after)
  then {| ui := after; subscription := subscription y; inflight := inflight y ++ new |}
  else {| ui := (subscribe cfg after).1; subscription := (subscribe cfg after).2;
          inflight := inflight y ++ new |}.

Definition isSet {A} (o : option A) : bool :=
  match o with
  | Some _ => true
  | None => false
  end.

(** One event.  [None]: the event cannot happen in [y] (a control that is
    not on the screen, a callback without its listener, a settlement
    without a request). *)
Definition step (cfg : config) (e : event) (y : system) : option system :=
  match e with
  | Mount sdk_ok => Some (commit cfg y (initialize cfg sdk_ok (ui y)) [])
  | AuthUser uid =>
      if isSet (auth (ui y)) then Some (commit cfg y (onAuthUser uid (ui y)) []) else None
  | AuthFailed =>
      if isSet (auth (ui y)) then Some (commit cfg y (onAuthError (ui y)) []) else None
  | SnapshotNext docs =>
      if isSet (subscription y)
      then Some (commit cfg y (default (ui y) (onSnapshotNext docs (ui y))) [])
      else None
  | SnapshotError =>
      if isSet (subscription y)
      then Some {| ui := onSnapshotError (ui y); subscription := None;
                   inflight := inflight y |}
      else None
  | Act i =>
      if offered (render (ui y)) i
      then Some (commit cfg y (act cfg i (ui y)).1 (act cfg i (ui y)).2)
      else None
  | Settled m o =>
      rest ← takeRequest m (inflight y);
      Some {| ui := settle m o (ui y); subscription := subscription y; inflight := rest |}
  end.

Fixpoint run (cfg : config) (es : list event) (y : system) : option system :=
  match es with
  | [] => Some y
  | e :: es' => y' ← step cfg e y; run cfg es' y'
  end.

Definition boot : system := {| ui := initialState; subscription := None; inflight := [] |}.

(** ** The document store *)

(** Documents by their path, as lists of segments. *)
Abbreviation store := (gmap (list string) (gmap string data)).

(** What a request that succeeds does to the store; [newId] is the
    identifier the store gives to an added document.  An update merges its
    fields into a document that exists; [None]: the request is rejected. *)
Definition applyRequest (newId : string) (r : request) (st : store) : option store :=
  match r with
  | AddDoc path fields =>
      c ← collectionRef path;
      Some (<[c ++ [newId] := fields]> st)
  | UpdateDoc path fields =>
      k ← docRef path;
      old ← st !! k;
      Some (<[k := fields ∪ old]> st)
  | DeleteDoc path =>
      k ← docRef path;
      Some (delete k st)
  end.

(** A stored field as [doc.data()] presents it; [r] is the identity of the
    object made for a timestamp. *)
Definition readBack (r : nat) (x : data) : value :=
  match x with
  | DNull => VNull
  | DStr s => VStr s
  | DTimestamp millis => VTimestamp r millis
  end.

Definition decode (refs : string → nat) (fields : gmap string data) : gmap string value :=
  map_imap (λ k x, Some (readBack (refs k) x)) fields.

Definition storedMillis (x : data) : option Z :=
  match x with
  | DTimestamp millis => Some millis
  | _ => None
  end.

(** [docs] is a snapshot of the collection [c] of [st]: one document for
    each stored document of the collection, in any order. *)
Definition delivers (st : store) (c : list string) (docs : list doc) : Prop :=
  NoDup (doc_id <$> docs) ∧
  (∀ d, d ∈ docs →
     ∃ fields refs, st !! (c ++ [doc_id d]) = Some fields ∧ doc_data d = decode refs fields) ∧
  (∀ id, is_Some (st !! (c ++ [id])) → id ∈ doc_id <$> docs).

(** An error message is set. *)
Definition failed (s : State) : Prop := ∃ e, error s = Some e ∧ nonempty e = true.

(** ** Kinds of events *)

(** Events that leave the identity [uid] of the session as it is: all but
    the arrival of another user. *)
Definition keepsIdentity (uid : string) (e : event) : bool :=
  match e with
  | AuthUser u => String.eqb u uid
  | _ => true
  end.

Definition isSnapshotEvent (e : event) : bool :=
  match e with
  | SnapshotNext _ | SnapshotError => true
  | _ => false
  end.

(** ** A deployment and a few documents to run the program on *)

Definition deployment : config :=
  {| firebase_config := true; app_id := None; initial_auth_token := None |}.

Definition haiku : doc :=
  Doc "p1" (<[ "text" := VStr "Write a haiku" ]> {[ "createdAt" := VTimestamp 1 1000 ]}).

Definition sonnet : doc :=
  Doc "p2" (<[ "text" := VStr "Write a sonnet" ]> {[ "createdAt" := VTimestamp 2 2000 ]}).

(** A document without [createdAt]. *)
Definition undated : doc := Doc "p0" {[ "text" := VStr "Undated" ]}.

(** A document whose data has a field named [id]. *)
Definition renamed : doc :=
  Doc "p3" (<[ "id" := VStr "p1" ]> {[ "text" := VStr "Shadow" ]}).

(** Identity and store in place, nothing loaded yet. *)
Definition established : State :=
  setUserId (Some "u1") (setDb (Some SdkHandle) (setAuth (Some SdkHandle)
    (setInitialized true initialState))).

(** The session of user [u1] once the snapshot [docs] has arrived. *)
Definition loadedWith (docs : list doc) : option system :=
  run deployment [Mount true; AuthUser "u1"; SnapshotNext docs] boot.

Definition session (docs : list doc) : system := default boot (loadedWith docs).

(** User [u1] presses Delete on [p1] and the request is rejected. *)
Definition deleteRejected : system :=
  default boot
    (run deployment [Act (DeletePrompt (VStr "p1")); Settled Delete Rejected]
       (session [haiku])).



(** The user opens the edit form of [p1], types a new text, presses Save
    and then Cancel while the update is awaited. *)
Definition saveThenCancel : list event :=
  [Act (StartEdit (promptOf haiku)); Act (TypeEdit "Write a limerick");
   Act SubmitUpdate; Act CancelEdit].

Definition cancelledAwaiting : system :=
  default boot (run deployment saveThenCancel (session [haiku])).

Definition cancelledSettled : system :=
  default boot (step deployment (Settled Update Resolved) cancelledAwaiting).

(** The user has the edit form of [p1] open with a new text in it. *)
Definition editingHaiku : State :=
  ui (default boot
        (run deployment [Act (StartEdit (promptOf haiku)); Act (TypeEdit "Write a limerick")]
           (session [haiku]))).

(** The same state with a text typed into the input buffer as well. *)
Definition composing : State := setNewPrompt "Write a sonnet" editingHaiku.

(** The store of the deployment with the one document [p1] of user [u1]. *)
Definition haikuStore : gmap (list string) (gmap string data) :=
  {[ ["artifacts"; "default-app-id"; "users"; "u1"; "prompts"; "p1"] :=
       <[ "text" := DStr "Write a haiku" ]> {[ "createdAt" := DTimestamp 1000 ]} ]}.

(** The snapshot that follows the update of [p1]. *)
Definition limerick : doc :=
  Doc "p1" (<[ "text" := VStr "Write a limerick" ]> {[ "createdAt" := VTimestamp 7 1000 ]}).

(** ** More on traces and views *)

(** The create requests among the requests awaited. *)
Definition creates (l : list request) : list request :=
  filter (λ r, sameKind Add r = true) l.

(** The events that report an error: a rejected sign-in, a failed
    subscription, a rejected request, and the first initialisation when the
    configuration is missing or the SDK throws. *)
Definition raisesError (cfg : config) (e : event) (y : system) : bool :=
  match e with
  | AuthFailed | SnapshotError => true
  | Settled _ Rejected => true
  | Mount sdk_ok => negb (isInitialized (ui y)) && negb (firebase_config cfg && sdk_ok)
  | _ => false
  end.

(** A prompt whose [createdAt] is [k] ([None]: not a timestamp). *)
Definition stampedAt (k : option Z) (p : object) : Prop := createdAtMillis p = k.

#[global] Instance stampedAt_dec k p : Decision (stampedAt k p).
Proof. unfold stampedAt. apply _. Defined.

(** A document that has no [text] field. *)
Definition textless : doc := Doc "p9" {[ "createdAt" := VTimestamp 9 9000 ]}.

(** A document whose [createdAt] is a string. *)
Definition misdated : doc :=
  Doc "p8" (<[ "text" := VStr "Misdated" ]> {[ "createdAt" := VStr "yesterday" ]}).

(** A second prompt written in the same millisecond as [haiku]. *)
Definition twin : doc :=
  Doc "p7" (<[ "text" := VStr "Twin" ]> {[ "createdAt" := VTimestamp 3 1000 ]}).

(** A deployment without its configuration object. *)
Definition unconfigured : config :=
  {| firebase_config := false; app_id := None; initial_auth_token := None |}.


(** User [u1] has typed a prompt and pressed Add; the insert is awaited. *)
Definition adding : system :=
  default boot
    (run deployment [Act (TypeNew "Write a haiku"); Act (SubmitAdd 1000)] (session [])).

(** The submitting flag and the creates awaited go together: while the
    flag is up there is one create awaited, that of the text in the input
    box; while it is down there is none. *)
Definition oneCreate (cfg : config) (y : system) : Prop :=
  if isSubmitting (ui y)
  then ∃ uid now,
         creates (inflight y) =
         [AddDoc (collectionPath cfg uid)
            (<[ "text" := DStr (newPrompt (ui y)) ]> {[ "createdAt" := DTimestamp now ]})]
  else creates (inflight y) = [].

(** Handles come before the identity: a user id is there only after the
    auth handle, and the auth handle only with the store handle. *)
Definition wired (s : State) : Prop :=
  (is_Some (userId s) → is_Some (auth s)) ∧ (is_Some (auth s) → is_Some (db s)).


(** The library of user [u1] with the one prompt [p1], nothing typed. *)
Definition haikuLibrary : mainView :=
  {| shownUserId := "u1"; textareaValue := ""; textareaDisabled := false;
     addDisabled := true; rows := [PromptRow (promptOf haiku)] |}.

(** * Properties *)

(** ** Strings *)

Lemma trimStart_blank s : blank s = true → trimStart s = "".
Proof.
  induction s as [|c s IH]; simpl; [done|].
  destruct (is_ws c); simpl; [auto|done].
Qed.

Lemma trimEnd_empty s : trimEnd s = "" ↔ blank s = true.
Proof.
  induction s as [|c s IH]; simpl; [done|].
  destruct (trimEnd s) eqn:E.
  - destruct (is_ws c); simpl; [tauto|]. split; done.
  - split; [done|]. intros [_ H]%andb_true_iff. by apply IH in H.
Qed.

Lemma blank_trimStart s : blank (trimStart s) = blank s.
Proof.
  induction s as [|c s IH]; simpl; [done|].
  destruct (is_ws c) eqn:E; simpl; [done|by rewrite E].
Qed.

Lemma trim_empty s : trim s = "" ↔ blank s = true.
Proof. unfold trim. by rewrite trimEnd_empty, blank_trimStart. Qed.

(** [!text.trim()] holds exactly for the blank texts. *)
Lemma nonempty_trim s : nonempty (trim s) = negb (blank s).
Proof.
  unfold nonempty. destruct (blank s) eqn:E.
  - apply trim_empty in E. by rewrite E.
  - destruct (String.eqb_spec (trim s) "") as [H|H]; [|done].
    apply trim_empty in H. congruence.
Qed.

Lemma append_cons x a b : String x a +:+ b = String x (a +:+ b).
Proof. done. Qed.

Lemma append_nil_l a : "" +:+ a = a.
Proof. done. Qed.

Lemma append_assoc (a b c : string) : (a +:+ b) +:+ c = a +:+ b +:+ c.
Proof.
  induction a as [|x a IH]; [done|].
  rewrite !append_cons. by rewrite IH.
Qed.

(** A document path is the collection path, a slash and the identifier. *)
Lemma docPath_collectionPath cfg uid v :
  docPath cfg uid v = collectionPath cfg uid +:+ "/" +:+ toString v.
Proof.
  unfold docPath, collectionPath.
  rewrite !append_assoc. by rewrite !append_cons, !append_nil_l.
Qed.

(** ** Empty input *)

(** C3.  With an empty or white-space-only text in the input buffer,
    [handleAddPrompt] returns at its guard, and so does [handleUpdatePrompt]
    with such a text in the edit buffer: no request is issued and the state
    (input buffer, edit overlay, submitting flag, prompts, and the rest) is
    the one before. *)
Theorem blank_text_is_rejected (cfg : config) (now : Z) (s : State) (text : string) :
  blank text = true →
  let sa := setNewPrompt text s in
  let su := setEditingPromptText (VStr text) s in
  handleAddPrompt cfg now sa = Returned ∧
  act cfg (SubmitAdd now) sa = (sa, []) ∧
  handleUpdatePrompt cfg su = Returned ∧
  act cfg SubmitUpdate su = (su, []).
Proof.
  intros Hb sa su.
  assert (Ha : handleAddPrompt cfg now sa = Returned).
  { unfold handleAddPrompt. simpl. by rewrite nonempty_trim, Hb. }
  assert (Hu : handleUpdatePrompt cfg su = Returned).
  { unfold handleUpdatePrompt. simpl. by rewrite nonempty_trim, Hb. }
  repeat split; [done| |done|]; simpl; [by rewrite Ha|by rewrite Hu].
Qed.

Lemma blank_text_is_rejected_witness :
  blank "   " = true ∧ ready established = Some "u1" ∧
  act deployment (SubmitAdd 5) (setNewPrompt "   " established)
    = (setNewPrompt "   " established, []) ∧
  act deployment SubmitUpdate (setEditingPromptText (VStr "   ") established)
    = (setEditingPromptText (VStr "   ") established, []).
Proof.
  split; [reflexivity|]. split; [reflexivity|].
  pose proof (blank_text_is_rejected deployment 5 established "   " eq_refl)
    as (_ & Ha & _ & Hu).
  exact (conj Ha Hu).
Defined.

(** ** The sort *)

Lemma insertBack_perm x acc r : insertBack x acc = Some r → r ≡ₚ x :: acc.
Proof.
  revert r. induction acc as [|y acc IH]; simpl; intros r H.
  - by inversion H.
  - destruct (sortCompare y x) as [v|]; simpl in H; [|done].
    destruct (0 <? v)%Z.
    + destruct (insertBack x acc) as [r'|]; simpl in H; [|done].
      inversion H; subst. rewrite (IH r' eq_refl). apply perm_swap.
    + by inversion H.
Qed.

Lemma sortFrom_perm acc l r : sortFrom acc l = Some r → r ≡ₚ acc ++ l.
Proof.
  revert acc r. induction l as [|x l IH]; simpl; intros acc r H.
  - inversion H; subst. rewrite app_nil_r. symmetry. apply Permutation_rev.
  - destruct (insertBack x acc) as [acc'|] eqn:E; simpl in H; [|done].
    rewrite (IH _ _ H), (insertBack_perm _ _ _ E). simpl.
    apply Permutation_middle.
Qed.

(** The sorted array holds the elements of the array it was given. *)
Lemma sort_perm l r : sort l = Some r → r ≡ₚ l.
Proof. apply sortFrom_perm. Qed.

Lemma sortCompare_readable p q :
  readable p → readable q → is_Some (sortCompare p q).
Proof.
  unfold readable, sortCompare, compareFn. intros [x ->] [y ->]. simpl. eauto.
Qed.

Lemma insertBack_total x acc :
  readable x → Forall readable acc → is_Some (insertBack x acc).
Proof.
  intros Hx. induction 1 as [|y acc Hy _ IH]; simpl; [eauto|].
  destruct (sortCompare_readable y x Hy Hx) as [v ->]. simpl.
  destruct (0 <? v)%Z; [|eauto]. destruct IH as [r ->]. simpl. eauto.
Qed.

Lemma sortFrom_total acc l :
  Forall readable acc → Forall readable l → is_Some (sortFrom acc l).
Proof.
  intros Ha Hl. revert acc Ha.
  induction Hl as [|x l Hx _ IH]; simpl; intros acc Ha; [eauto|].
  destruct (insertBack_total x acc Hx Ha) as [acc' E]. rewrite E. simpl.
  apply IH. apply insertBack_perm in E. rewrite E. by constructor.
Qed.

(** The comparator throws for no array whose [createdAt] fields are
    timestamps, null or absent. *)
Lemma sort_total l : Forall readable l → is_Some (sort l).
Proof. intros. by apply sortFrom_total. Qed.

Lemma timestamped_readable p : timestamped p → readable p.
Proof.
  unfold timestamped, readable, createdAtMillis.
  destruct (get p "createdAt"); simpl; intros [? ?]; by eauto.
Qed.

Lemma sortCompare_timestamped p q a b :
  createdAtMillis p = Some a → createdAtMillis q = Some b →
  sortCompare p q = Some (b - a)%Z.
Proof.
  unfold createdAtMillis, sortCompare, compareFn.
  destruct (get p "createdAt"), (get q "createdAt"); simpl; try done.
  by intros [= ->] [= ->].
Qed.

Lemma insertBack_sorted x acc r :
  timestamped x → Forall timestamped acc →
  StronglySorted (flip newerOrEqual) acc →
  insertBack x acc = Some r →
  StronglySorted (flip newerOrEqual) r.
Proof.
  intros [a Ha] Hts. revert r.
  induction acc as [|y acc IH]; simpl; intros r Hs H.
  - inversion H. repeat constructor.
  - apply Forall_cons in Hts as [[b Hb] Hts].
    apply StronglySorted_cons in Hs as [Hy Hs].
    rewrite (sortCompare_timestamped _ _ _ _ Hb Ha) in H. simpl in H.
    destruct (0 <? a - b)%Z eqn:E.
    + destruct (insertBack x acc) as [r'|] eqn:E'; simpl in H; [|done].
      inversion H; subst. apply StronglySorted_cons. split; [|by apply IH].
      apply insertBack_perm in E'. rewrite E'. constructor; [|done].
      unfold flip, newerOrEqual. rewrite Ha, Hb. apply Z.ltb_lt in E. lia.
    + inversion H; subst. apply Z.ltb_ge in E.
      apply StronglySorted_cons. split; [|by apply StronglySorted_cons].
      constructor.
      { unfold flip, newerOrEqual. rewrite Ha, Hb. lia. }
      rewrite Forall_forall in Hy, Hts. apply Forall_forall. intros z Hz.
      specialize (Hy z Hz). destruct (Hts z Hz) as [c Hc].
      unfold flip, newerOrEqual in *. rewrite Hb, Hc in Hy. rewrite Hc, Ha. lia.
Qed.

Lemma StronglySorted_rev {A} (R : relation A) l :
  StronglySorted (flip R) l → StronglySorted R (rev l).
Proof.
  induction l as [|x l IH]; simpl; intros H; [constructor|].
  apply StronglySorted_cons in H as [Hx H].
  apply StronglySorted_app. split_and!; [|by apply IH|repeat constructor].
  intros y z Hy ->%list_elem_of_singleton.
  rewrite Forall_forall in Hx. apply Hx.
  apply list_elem_of_In, in_rev. by apply list_elem_of_In.
Qed.

Lemma sortFrom_sorted acc l r :
  Forall timestamped acc → Forall timestamped l →
  StronglySorted (flip newerOrEqual) acc →
  sortFrom acc l = Some r → sortedDescending r.
Proof.
  intros Ha Hl. revert acc r Ha.
  induction Hl as [|x l Hx _ IH]; simpl; intros acc r Ha Hs H.
  - inversion H; subst. by apply StronglySorted_rev.
  - destruct (insertBack x acc) as [acc'|] eqn:E; simpl in H; [|done].
    apply (IH acc'); [|by eapply insertBack_sorted|done].
    apply insertBack_perm in E. rewrite E. by constructor.
Qed.

(** When every element carries a timestamp the comparator is a consistent
    ordering and the result is in descending order of [createdAt]. *)
Lemma sort_sorted l :
  Forall timestamped l → ∃ r, sort l = Some r ∧ sortedDescending r ∧ r ≡ₚ l.
Proof.
  intros H.
  destruct (sort_total l) as [r E].
  { eapply Forall_impl; [done|]. apply timestamped_readable. }
  exists r. split_and!; [done| |by apply sort_perm].
  eapply (sortFrom_sorted [] l); [constructor|done|constructor|done].
Qed.

(** ** The snapshot callback *)

(** Full replacement: the new list is made of the snapshot's documents
    alone, whatever the list was before; the other fields stay. *)
Lemma onSnapshotNext_replaces docs s s' :
  onSnapshotNext docs s = Some s' →
  prompts s' ≡ₚ promptOf <$> docs ∧ isLoading s' = false ∧
  ∃ l, sort (promptOf <$> docs) = Some l ∧ s' = setIsLoading false (setPrompts l s).
Proof.
  unfold onSnapshotNext. intros H.
  destruct (sort (promptOf <$> docs)) as [l|] eqn:E; simpl in H; [|done].
  inversion H; subst. simpl. split_and!; [by apply sort_perm|done|by exists l].
Qed.

Lemma onSnapshotNext_total docs s :
  Forall (λ d, readable (promptOf d)) docs → is_Some (onSnapshotNext docs s).
Proof.
  intros H. unfold onSnapshotNext.
  destruct (sort_total (promptOf <$> docs)) as [l ->]; [|by eauto].
  by apply Forall_fmap.
Qed.

(** With a timestamp on every document the presented list is sorted by
    [createdAt], latest first. *)
Lemma onSnapshotNext_sorted docs s :
  Forall (λ d, timestamped (promptOf d)) docs →
  ∃ s', onSnapshotNext docs s = Some s' ∧
        sortedDescending (prompts s') ∧ prompts s' ≡ₚ promptOf <$> docs.
Proof.
  intros H. destruct (sort_sorted (promptOf <$> docs)) as (r & E & Hs & Hp).
  { by apply Forall_fmap. }
  unfold onSnapshotNext. rewrite E. simpl. eauto.
Qed.

Lemma onSnapshotNext_sorted_witness :
  ∃ s', onSnapshotNext [haiku; sonnet] initialState = Some s' ∧
        sortedDescending (prompts s') ∧ prompts s' ≡ₚ promptOf <$> [haiku; sonnet].
Proof.
  apply (onSnapshotNext_sorted [haiku; sonnet] initialState).
  repeat constructor; by eexists.
Defined.

(** C2.  A snapshot in which one document lacks [createdAt]: the callback
    replaces the list with the snapshot's documents, but the comparator
    yields [NaN] against the undated document, nothing moves, and the
    prompt of time 1000 stays ahead of the prompt of time 2000: the
    presented list is not sorted by [createdAt] descending. *)
Theorem snapshot_with_undated_document (s : State) :
  ∃ s', onSnapshotNext [haiku; undated; sonnet] s = Some s' ∧
        prompts s' = promptOf <$> [haiku; undated; sonnet] ∧
        createdAtMillis (promptOf haiku) = Some 1000%Z ∧
        createdAtMillis (promptOf sonnet) = Some 2000%Z ∧
        ¬ sortedDescending (prompts s').
Proof.
  eexists. split_and!; [reflexivity..|].
  simpl. intros H.
  apply StronglySorted_cons in H as [H _].
  apply Forall_cons in H as [_ H]. apply Forall_cons in H as [H _].
  vm_compute in H. by apply H.
Qed.

(** ** Prompt identifiers *)

Lemma promptOf_lookup_data (d : doc) k v :
  doc_data d !! k = Some v → promptOf d !! k = Some v.
Proof. intros H. unfold promptOf, spread. by apply lookup_union_Some_l. Qed.

Lemma promptOf_lookup_id (d : doc) :
  doc_data d !! "id" = None → get (promptOf d) "id" = VStr (doc_id d).
Proof.
  intros H. unfold get, promptOf, spread.
  by rewrite lookup_union_r, lookup_singleton_eq.
Qed.

(** C9.  A prompt is [{ id: doc.id, ...doc.data() }], the fields of the data
    applied last.  A prompt always has an [id]: the document id when the data
    has no field of that name, and the data's own [id] field when it has one,
    which takes the place of the document id.  Every field of the data is a
    field of the prompt, and apart from [id] the prompt has no other field.
    The id of the prompt, wherever it comes from, is the React key of the
    row, the value compared with the editing id, the id [startEditing]
    records, and the one id the Delete button of the row passes on. *)
Theorem data_id_overrides_doc_id (d : doc) (s : State) :
  get (promptOf d) "id" = default (VStr (doc_id d)) (doc_data d !! "id") ∧
  (doc_data d !! "id" = None → promptOf d !! "id" = Some (VStr (doc_id d))) ∧
  (∀ v, doc_data d !! "id" = Some v → promptOf d !! "id" = Some v) ∧
  (∀ k w, doc_data d !! k = Some w → promptOf d !! k = Some w) ∧
  (∀ k, k ≠ "id" → promptOf d !! k = doc_data d !! k) ∧
  rowKey (renderRow s (promptOf d)) = get (promptOf d) "id" ∧
  isEditForm (renderRow s (promptOf d))
  = strict_eq (editingPromptId s) (get (promptOf d) "id") ∧
  editingPromptId (startEditing (promptOf d) s) = get (promptOf d) "id" ∧
  (strict_eq (editingPromptId s) (get (promptOf d) "id") = false →
   ∀ w, hasDeleteFor w (renderRow s (promptOf d)) = true ↔ w = get (promptOf d) "id").
Proof.
  split_and!.
  - destruct (doc_data d !! "id") as [v|] eqn:E; simpl.
    + unfold get. by rewrite (promptOf_lookup_data d "id" v E).
    + by apply promptOf_lookup_id.
  - intros E. unfold promptOf, spread.
    by rewrite lookup_union_r, lookup_singleton_eq.
  - intros v. apply promptOf_lookup_data.
  - intros k w. apply promptOf_lookup_data.
  - intros k Hk. unfold promptOf, spread.
    rewrite lookup_union, lookup_singleton_ne by done.
    by destruct (doc_data d !! k).
  - unfold renderRow. by destruct (strict_eq _ _).
  - unfold renderRow. by destruct (strict_eq _ _).
  - done.
  - intros E w. unfold renderRow. rewrite E. simpl.
    rewrite bool_decide_eq_true. split; intros H; by subst.
Qed.

Lemma data_id_overrides_doc_id_witness :
  (doc_id haiku = "p1" ∧ doc_data haiku !! "id" = None ∧
   get (promptOf haiku) "id" = VStr "p1" ∧
   rowKey (renderRow initialState (promptOf haiku)) = VStr "p1") ∧
  (doc_id renamed = "p3" ∧ doc_data renamed !! "id" = Some (VStr "p1") ∧
   get (promptOf renamed) "id" = VStr "p1" ∧
   rowKey (renderRow initialState (promptOf renamed)) = VStr "p1" ∧
   hasDeleteFor (VStr "p1") (renderRow initialState (promptOf renamed)) = true).
Proof.
  pose proof (data_id_overrides_doc_id haiku initialState)
    as (H1 & _ & _ & _ & _ & H2 & _).
  pose proof (data_id_overrides_doc_id renamed initialState)
    as (R1 & _ & _ & _ & _ & R2 & _ & _ & R3).
  assert (Hh : doc_data haiku !! "id" = None) by (vm_compute; reflexivity).
  assert (Hr : doc_data renamed !! "id" = Some (VStr "p1")) by (vm_compute; reflexivity).
  rewrite Hh in H1. rewrite Hr in R1. simpl in H1, R1.
  split.
  - split; [reflexivity|]. split; [exact Hh|]. split; [exact H1|].
    rewrite H2. exact H1.
  - split; [reflexivity|]. split; [exact Hr|]. split; [exact R1|].
    split; [rewrite R2; exact R1|].
    apply R3; [rewrite R1; reflexivity|]. exact R1.
Defined.

(** ** The editing overlay *)

Lemma strict_eq_refl v : strict_eq v v = true.
Proof.
  destruct v; simpl; try done; [apply String.eqb_refl|apply Nat.eqb_refl].
Qed.

(** Two values strictly equal to a third are strictly equal. *)
Lemma strict_eq_common e a b :
  strict_eq e a = true → strict_eq e b = true → strict_eq a b = true.
Proof.
  destruct e, a, b; simpl; try done.
  - intros ->%String.eqb_eq ->%String.eqb_eq. apply String.eqb_refl.
  - intros ->%Nat.eqb_eq ->%Nat.eqb_eq. apply Nat.eqb_refl.
Qed.

(** C6.  The overlay is one slot of the state.  [startEditing p2] while [p1]
    is being edited leaves the state [startEditing p2] alone would have
    given: the editing id is that of [p2] and the draft is the text of
    [p2].  On the screen a prompt is in edit mode exactly when its id is
    strictly equal to that of [p2], so [p1] with another id is back to its
    display row; and in any state all rows in edit mode carry one id. *)
Theorem single_editing_slot (s : State) (p1 p2 : object) :
  let s2 := startEditing p2 (startEditing p1 s) in
  s2 = startEditing p2 s ∧
  editingPromptId s2 = get p2 "id" ∧
  editingPromptText s2 = get p2 "text" ∧
  (∀ q, renderRow s2 q =
        if strict_eq (get p2 "id") (get q "id") then EditForm q (get p2 "text")
        else PromptRow q) ∧
  renderRow s2 p2 = EditForm p2 (get p2 "text") ∧
  (strict_eq (get p2 "id") (get p1 "id") = false → renderRow s2 p1 = PromptRow p1) ∧
  (∀ s' q q', isEditForm (renderRow s' q) = true → isEditForm (renderRow s' q') = true →
              strict_eq (get q "id") (get q' "id") = true).
Proof.
  split_and!; try done.
  - unfold renderRow. simpl. by rewrite strict_eq_refl.
  - intros H. unfold renderRow. simpl. by rewrite H.
  - intros s' q q'. unfold renderRow.
    destruct (strict_eq (editingPromptId s') (get q "id")) eqn:E; [|done].
    destruct (strict_eq (editingPromptId s') (get q' "id")) eqn:E'; [|done].
    intros _ _. by eapply strict_eq_common.
Qed.

Lemma single_editing_slot_witness :
  renderRow (startEditing (promptOf sonnet) (startEditing (promptOf haiku) initialState))
    (promptOf haiku) = PromptRow (promptOf haiku) ∧
  renderRow (startEditing (promptOf sonnet) (startEditing (promptOf haiku) initialState))
    (promptOf sonnet) = EditForm (promptOf sonnet) (VStr "Write a sonnet").
Proof.
  pose proof (single_editing_slot initialState (promptOf haiku) (promptOf sonnet))
    as (_ & _ & _ & _ & H2 & H1 & _).
  split; [apply H1; reflexivity|exact H2].
Defined.

(** ** Mutations *)

Lemma ready_nonempty s uid : ready s = Some uid → nonempty uid = true.
Proof.
  unfold ready. destruct (db s), (userId s) as [u|]; try done.
  destruct (nonempty u) eqn:E; [|done]. by intros [= <-].
Qed.

Lemma ready_userId s uid : ready s = Some uid → userId s = Some uid ∧ db s = Some SdkHandle.
Proof.
  unfold ready. destruct (db s) as [[]|], (userId s) as [u|]; try done.
  destruct (nonempty u); [|done]. by intros [= <-].
Qed.

(** C4.  With a text that is not blank and identity and store in place,
    [handleAddPrompt] issues the insert of that text and of the clock
    reading, with the input buffer as it was.  When the insert succeeds the
    buffer is emptied; when it fails the buffer is left as it is, with the
    draft in it, and the error message is set and rendered.  The same holds
    in whatever state [s2] the settlement finds. *)
Theorem create_clears_buffer_on_success_only
    (cfg : config) (now : Z) (s : State) (uid : string) :
  ready s = Some uid → blank (newPrompt s) = false →
  ∃ s1,
    handleAddPrompt cfg now s =
      Awaiting s1 (AddDoc (collectionPath cfg uid)
                     (<[ "text" := DStr (newPrompt s) ]> {[ "createdAt" := DTimestamp now ]})) ∧
    newPrompt s1 = newPrompt s ∧
    newPrompt (addSettled Resolved s1) = "" ∧
    newPrompt (addSettled Rejected s1) = newPrompt s ∧
    error (addSettled Rejected s1) = Some "Failed to save prompt." ∧
    render (addSettled Rejected s1) = ErrorView "Failed to save prompt." ∧
    (∀ s2, newPrompt (addSettled Resolved s2) = "" ∧
           error (addSettled Resolved s2) = error s2 ∧
           newPrompt (addSettled Rejected s2) = newPrompt s2 ∧
           error (addSettled Rejected s2) = Some "Failed to save prompt.").
Proof.
  intros Hr Hb. exists (setIsSubmitting true s).
  split_and!; try done.
  unfold handleAddPrompt. by rewrite nonempty_trim, Hb, Hr.
Qed.

Lemma create_clears_buffer_on_success_only_witness :
  ∃ s1,
    handleAddPrompt deployment 1000 (setNewPrompt "Write a haiku" established) =
      Awaiting s1 (AddDoc "/artifacts/default-app-id/users/u1/prompts"
                     (<[ "text" := DStr "Write a haiku" ]> {[ "createdAt" := DTimestamp 1000 ]})) ∧
    newPrompt (addSettled Resolved s1) = "" ∧
    newPrompt (addSettled Rejected s1) = "Write a haiku" ∧
    render (addSettled Rejected s1) = ErrorView "Failed to save prompt.".
Proof.
  destruct (create_clears_buffer_on_success_only deployment 1000
              (setNewPrompt "Write a haiku" established) "u1" eq_refl eq_refl)
    as (s1 & H1 & _ & H3 & H4 & _ & H6 & _).
  exists s1. exact (conj H1 (conj H3 (conj H4 H6))).
Defined.

(** ** Paths *)

Lemma append_nil_r a : a +:+ "" = a.
Proof. induction a as [|x a IH]; [done|]. by rewrite append_cons, IH. Qed.

Lemma has_double_slash_cons c s :
  has_double_slash (String c s) =
  (Ascii.eqb c "/" && leading_slash s) || has_double_slash s.
Proof. destruct s; simpl; [by rewrite andb_false_r|done]. Qed.

Lemma has_double_slash_app s t :
  no_slash s = true → has_double_slash (s +:+ t) = has_double_slash t.
Proof.
  induction s as [|c s IH]; [done|].
  intros H. simpl in H. apply andb_true_iff in H as [Hc Hs].
  rewrite append_cons, has_double_slash_cons, IH by done.
  by destruct (Ascii.eqb c "/").
Qed.

Lemma split_slash_app s t seg segs :
  no_slash s = true → split_slash t = seg :: segs →
  split_slash (s +:+ t) = (s +:+ seg) :: segs.
Proof.
  intros Hs Ht. induction s as [|c s IH]; [done|].
  simpl in Hs. apply andb_true_iff in Hs as [Hc Hs].
  rewrite append_cons. simpl. rewrite IH by done.
  by destruct (Ascii.eqb c "/").
Qed.

Lemma leading_slash_app s t : nonempty s = true → leading_slash (s +:+ t) = leading_slash s.
Proof. by destruct s. Qed.

Lemma segment_leading_slash s : segment s = true → leading_slash s = false.
Proof.
  destruct s as [|c s]; [done|]. unfold segment. simpl.
  by destruct (Ascii.eqb c "/").
Qed.

Lemma joinPath_cons seg segs : joinPath (seg :: segs) = String "/" (seg +:+ joinPath segs).
Proof. done. Qed.

Lemma joinPath_split segs :
  Forall (λ seg, segment seg = true) segs →
  has_double_slash (joinPath segs) = false ∧ split_slash (joinPath segs) = "" :: segs.
Proof.
  induction 1 as [|seg segs Hs _ [IH1 IH2]]; [done|].
  pose proof Hs as [Hne Hns]%andb_true_iff.
  rewrite joinPath_cons. split.
  - rewrite has_double_slash_cons, leading_slash_app, has_double_slash_app by done.
    by rewrite (segment_leading_slash seg Hs), IH1.
  - simpl. by rewrite (split_slash_app seg _ "" segs), append_nil_r.
Qed.

(** Firestore reads the joined segments back. *)
Lemma fromString_joinPath segs :
  Forall (λ seg, segment seg = true) segs → fromString (joinPath segs) = Some segs.
Proof.
  intros H. unfold fromString. destruct (joinPath_split segs H) as [-> ->].
  f_equal. rewrite filter_cons_False by done.
  induction H as [|seg segs [Hne _]%andb_true_iff _ IH]; [done|].
  by rewrite filter_cons_True, IH.
Qed.

(** A slash in front of a path changes nothing for Firestore. *)
Lemma fromString_leading_slash t :
  leading_slash t = false → fromString (String "/" t) = fromString t.
Proof.
  intros H. unfold fromString. rewrite has_double_slash_cons, H. simpl.
  destruct (has_double_slash t); [done|]. by rewrite filter_cons_False.
Qed.

Lemma collectionPath_specPath cfg uid :
  collectionPath cfg uid = String "/" (specPath (appId cfg) uid).
Proof. done. Qed.

Lemma collectionPath_joinPath cfg uid :
  collectionPath cfg uid = joinPath ["artifacts"; appId cfg; "users"; uid; "prompts"].
Proof.
  unfold collectionPath, joinPath. simpl.
  by rewrite ?append_cons, ?append_nil_l, ?append_nil_r.
Qed.

Lemma docPath_joinPath cfg uid pid :
  docPath cfg uid (VStr pid) =
  joinPath ["artifacts"; appId cfg; "users"; uid; "prompts"; pid].
Proof.
  unfold docPath, joinPath. simpl.
  by rewrite ?append_cons, ?append_nil_l, ?append_nil_r.
Qed.

(** The collection and the documents the program addresses, as Firestore
    reads them, when the identifiers are single segments. *)
Lemma collectionRef_collectionPath cfg uid :
  segment (appId cfg) = true → segment uid = true →
  collectionRef (collectionPath cfg uid) =
  Some ["artifacts"; appId cfg; "users"; uid; "prompts"].
Proof.
  intros Ha Hu. unfold collectionRef.
  rewrite collectionPath_joinPath, fromString_joinPath; [done|].
  by repeat constructor.
Qed.

Lemma docRef_docPath cfg uid pid :
  segment (appId cfg) = true → segment uid = true → segment pid = true →
  docRef (docPath cfg uid (VStr pid)) =
  Some (["artifacts"; appId cfg; "users"; uid; "prompts"] ++ [pid]).
Proof.
  intros Ha Hu Hp. unfold docRef.
  rewrite docPath_joinPath, fromString_joinPath; [done|].
  by repeat constructor.
Qed.

(** C8.  With identity [uid] and the store in place, the subscription and
    the three mutations address one collection: the path string is
    [artifacts/{appId}/users/{userId}/prompts] behind a slash, which
    Firestore reads as the same path; a document is addressed by that path,
    a slash and its id; [appId] is the deployment's identifier, or
    ['default-app-id'] when there is none.  For every identity and
    configuration, what the effect subscribes to and what a handler sends
    carries that path.  And where Firestore takes the path for a reference,
    the effect does subscribe to it, and each handler whose guards pass
    does send its request there: the create with the text and the time, the
    delete of the document of the id it is given, the update of the
    document of the editing id with the draft. *)
Theorem requests_address_user_collection (cfg : config) (s : State) (uid : string) :
  ready s = Some uid →
  appId cfg = default "default-app-id" (app_id cfg) ∧
  collectionPath cfg uid = "/" +:+ specPath (appId cfg) uid ∧
  fromString (collectionPath cfg uid) = fromString (specPath (appId cfg) uid) ∧
  (∀ id, fromString (collectionPath cfg uid +:+ "/" +:+ id)
         = fromString (specPath (appId cfg) uid +:+ "/" +:+ id)) ∧
  (∀ s1 path, subscribe cfg s = (s1, Some path) → path = collectionPath cfg uid) ∧
  (is_Some (collectionRef (collectionPath cfg uid)) →
     subscribe cfg s = (setIsLoading true s, Some (collectionPath cfg uid))) ∧
  (∀ now s1 r, handleAddPrompt cfg now s = Awaiting s1 r →
     ∃ fields, r = AddDoc (collectionPath cfg uid) fields) ∧
  (∀ now, is_Some (collectionRef (collectionPath cfg uid)) →
     blank (newPrompt s) = false →
     handleAddPrompt cfg now s
     = Awaiting (setIsSubmitting true s)
         (AddDoc (collectionPath cfg uid)
            (<[ "text" := DStr (newPrompt s) ]> {[ "createdAt" := DTimestamp now ]}))) ∧
  (∀ promptId s1 r, handleDeletePrompt cfg promptId s = Awaiting s1 r →
     r = DeleteDoc (collectionPath cfg uid +:+ "/" +:+ toString promptId)) ∧
  (∀ promptId,
     is_Some (docRef (collectionPath cfg uid +:+ "/" +:+ toString promptId)) →
     truthy promptId = true →
     handleDeletePrompt cfg promptId s
     = Awaiting s (DeleteDoc (collectionPath cfg uid +:+ "/" +:+ toString promptId))) ∧
  (∀ s1 r, handleUpdatePrompt cfg s = Awaiting s1 r →
     ∃ fields,
       r = UpdateDoc (collectionPath cfg uid +:+ "/" +:+ toString (editingPromptId s))
             fields) ∧
  (∀ text,
     is_Some (docRef (collectionPath cfg uid +:+ "/" +:+ toString (editingPromptId s))) →
     editingPromptText s = VStr text → blank text = false →
     truthy (editingPromptId s) = true →
     handleUpdatePrompt cfg s
     = Awaiting s
         (UpdateDoc (collectionPath cfg uid +:+ "/" +:+ toString (editingPromptId s))
            {[ "text" := DStr text ]})).
Proof.
  intros Hr. split_and!.
  - unfold appId. by destruct (app_id cfg).
  - done.
  - rewrite collectionPath_specPath. by apply fromString_leading_slash.
  - intros id. rewrite collectionPath_specPath, append_cons.
    by apply fromString_leading_slash.
  - intros s1 path. unfold subscribe. rewrite Hr. by intros [= _ <-].
  - intros _. unfold subscribe. by rewrite Hr.
  - intros now s1 r. unfold handleAddPrompt. rewrite Hr.
    destruct (negb _); [done|]. intros [= <- <-]. eauto.
  - intros now _ Hb. unfold handleAddPrompt.
    by rewrite nonempty_trim, Hb, Hr.
  - intros promptId s1 r. unfold handleDeletePrompt. rewrite Hr.
    destruct (truthy promptId); [|done]. intros [= <- <-].
    by rewrite docPath_collectionPath.
  - intros promptId _ Ht. unfold handleDeletePrompt.
    by rewrite Hr, Ht, docPath_collectionPath.
  - intros s1 r. unfold handleUpdatePrompt. rewrite Hr.
    destruct (editingPromptText s); try done.
    destruct (negb _); [done|]. destruct (truthy _); [|done].
    intros [= <- <-]. rewrite docPath_collectionPath. eauto.
  - intros text _ Ht Hb Hid. unfold handleUpdatePrompt.
    by rewrite Ht, nonempty_trim, Hb, Hr, Hid, docPath_collectionPath.
Qed.

Lemma requests_address_user_collection_witness :
  ready composing = Some "u1" ∧
  fromString (collectionPath deployment "u1")
  = Some ["artifacts"; "default-app-id"; "users"; "u1"; "prompts"] ∧
  subscribe deployment composing
  = (setIsLoading true composing, Some "/artifacts/default-app-id/users/u1/prompts") ∧
  handleAddPrompt deployment 3000%Z composing
  = Awaiting (setIsSubmitting true composing)
      (AddDoc "/artifacts/default-app-id/users/u1/prompts"
         (<[ "text" := DStr "Write a sonnet" ]> {[ "createdAt" := DTimestamp 3000%Z ]})) ∧
  handleDeletePrompt deployment (VStr "p2") composing
  = Awaiting composing (DeleteDoc "/artifacts/default-app-id/users/u1/prompts/p2") ∧
  handleUpdatePrompt deployment composing
  = Awaiting composing
      (UpdateDoc "/artifacts/default-app-id/users/u1/prompts/p1"
         {[ "text" := DStr "Write a limerick" ]}).
Proof.
  assert (Hr : ready composing = Some "u1") by (vm_compute; reflexivity).
  assert (Hc : is_Some (collectionRef (collectionPath deployment "u1")))
    by (vm_compute; eauto).
  pose proof (requests_address_user_collection deployment composing "u1" Hr)
    as (_ & _ & H3 & _ & _ & Hsub & _ & Hadd & _ & Hdel & _ & Hupd).
  split; [exact Hr|]. split; [rewrite H3; vm_compute; reflexivity|].
  split; [rewrite (Hsub Hc); vm_compute; reflexivity|].
  split.
  { rewrite (Hadd 3000%Z Hc ltac:(vm_compute; reflexivity)). vm_compute. reflexivity. }
  split.
  { rewrite (Hdel (VStr "p2") ltac:(vm_compute; eauto) eq_refl). vm_compute. reflexivity. }
  rewrite (Hupd "Write a limerick" ltac:(vm_compute; eauto)
             ltac:(vm_compute; reflexivity) ltac:(vm_compute; reflexivity)
             ltac:(vm_compute; reflexivity)).
  vm_compute. reflexivity.
Defined.

(** ** Steps of the system *)

(** What a user action or a settlement leaves alone. *)
Lemma handleAddPrompt_frame cfg now s s1 q :
  handleAddPrompt cfg now s = Awaiting s1 q → s1 = setIsSubmitting true s.
Proof.
  unfold handleAddPrompt. destruct (negb _); [done|].
  destruct (ready s); [|done]. by intros [= <- _].
Qed.

Lemma handleDeletePrompt_frame cfg promptId s s1 q :
  handleDeletePrompt cfg promptId s = Awaiting s1 q → s1 = s.
Proof.
  unfold handleDeletePrompt. destruct (ready s); [|done].
  destruct (truthy _); [|done]. by intros [= <- _].
Qed.

Lemma handleUpdatePrompt_frame cfg s s1 q :
  handleUpdatePrompt cfg s = Awaiting s1 q → s1 = s.
Proof.
  unfold handleUpdatePrompt. destruct (editingPromptText s); try done.
  destruct (negb _); [done|]. destruct (ready s); [|done].
  destruct (truthy _); [|done]. by intros [= <- _].
Qed.

Lemma act_frame cfg i s :
  isLoading (act cfg i s).1 = isLoading s ∧ error (act cfg i s).1 = error s ∧
  db (act cfg i s).1 = db s ∧ userId (act cfg i s).1 = userId s ∧
  prompts (act cfg i s).1 = prompts s ∧
  isInitialized (act cfg i s).1 = isInitialized s.
Proof.
  destruct i; simpl; try done.
  - destruct (handleAddPrompt cfg now s) eqn:E; simpl; try done.
    by apply handleAddPrompt_frame in E as ->.
  - destruct (handleDeletePrompt cfg promptId s) eqn:E; simpl; try done.
    by apply handleDeletePrompt_frame in E as ->.
  - destruct (handleUpdatePrompt cfg s) eqn:E; simpl; try done.
    by apply handleUpdatePrompt_frame in E as ->.
Qed.

Lemma settle_frame m o s :
  isLoading (settle m o s) = isLoading s ∧ db (settle m o s) = db s ∧
  userId (settle m o s) = userId s ∧ prompts (settle m o s) = prompts s ∧
  isInitialized (settle m o s) = isInitialized s.
Proof. by destruct m, o. Qed.

Lemma commit_same cfg y after new :
  db (ui y) = db after → userId (ui y) = userId after →
  commit cfg y after new =
  {| ui := after; subscription := subscription y; inflight := inflight y ++ new |}.
Proof. intros ??. unfold commit. by rewrite bool_decide_eq_true_2. Qed.

(** The error view hides every control. *)
Lemma render_error s e :
  error s = Some e → nonempty e = true →
  render s = ErrorView e ∧ ∀ i, offered (render s) i = false.
Proof. intros He Hn. unfold render. by rewrite He, Hn. Qed.

(** No step clears an error: no setter is ever given [null]. *)
Lemma step_failed cfg e y y' :
  failed (ui y) → step cfg e y = Some y' → failed (ui y').
Proof.
  intros (msg & He & Hn) H.
  assert (Hsub : ∀ s, failed s → failed (subscribe cfg s).1).
  { intros s Hs. unfold subscribe. by destruct (ready s). }
  assert (Hc : ∀ after new, failed after → failed (ui (commit cfg y after new))).
  { intros after new Ha. unfold commit. case_bool_decide; simpl; auto. }
  destruct e; simpl in H.
  - inversion H; subst. apply Hc. unfold initialize.
    destruct (isInitialized (ui y)); [by exists msg|].
    destruct (_ && _); simpl; [by exists msg|by eexists].
  - destruct (isSet _); [|done]. inversion H; subst. apply Hc. by exists msg.
  - destruct (isSet _); [|done]. inversion H; subst. apply Hc. by eexists.
  - destruct (isSet _); [|done]. inversion H; subst. apply Hc.
    destruct (onSnapshotNext docs (ui y)) as [s'|] eqn:E; simpl; [|by exists msg].
    apply onSnapshotNext_replaces in E as (_ & _ & l & _ & ->). by exists msg.
  - destruct (isSet _); [|done]. inversion H; subst. by eexists.
  - destruct (render_error _ _ He Hn) as [_ Hoff]. by rewrite Hoff in H.
  - destruct (takeRequest m (inflight y)); simpl in H; [|done].
    inversion H; subst. simpl. destruct m, o; simpl; (by exists msg) || by eexists.
Qed.

Lemma run_failed cfg es y y' :
  failed (ui y) → run cfg es y = Some y' → failed (ui y').
Proof.
  revert y. induction es as [|e es IH]; simpl; intros y Hf H.
  - by inversion H; subst.
  - destruct (step cfg e y) as [y1|] eqn:E; simpl in H; [|done].
    eapply IH; [|done]. by eapply step_failed.
Qed.

(** ** Failed mutations *)

(** C1, as the code has it.  When an awaited create, update or delete
    request fails, the prompts list, the input buffer and the edit overlay
    are left as they are and the message set is the fixed one of that
    mutation.  The message is shown by the one error view, which takes the
    place of the whole interface: no control is offered any more, and the
    error view stays whatever happens next. *)
Theorem mutation_failure_takes_the_screen
    (cfg : config) (m : mutation) (y : system) (rest : list request) :
  takeRequest m (inflight y) = Some rest →
  ∃ y', step cfg (Settled m Rejected) y = Some y' ∧
        prompts (ui y') = prompts (ui y) ∧
        newPrompt (ui y') = newPrompt (ui y) ∧
        editingPromptId (ui y') = editingPromptId (ui y) ∧
        editingPromptText (ui y') = editingPromptText (ui y) ∧
        error (ui y') = Some (failureMessage m) ∧
        render (ui y') = ErrorView (failureMessage m) ∧
        (∀ i, offered (render (ui y')) i = false) ∧
        (∀ es y'', run cfg es y' = Some y'' →
           ∃ msg, render (ui y'') = ErrorView msg ∧
                  ∀ i, offered (render (ui y'')) i = false).
Proof.
  intros H. simpl. rewrite H. simpl. eexists. split; [done|]. simpl.
  assert (He : error (settle m Rejected (ui y)) = Some (failureMessage m))
    by by destruct m.
  assert (Hn : nonempty (failureMessage m) = true) by by destruct m.
  destruct (render_error _ _ He Hn) as [Hr Hoff].
  split_and!; try done; try by destruct m.
  intros es y'' Hrun.
  apply run_failed in Hrun as (msg & He' & Hn'); [|by eexists].
  exists msg. by apply render_error.
Qed.

Lemma mutation_failure_takes_the_screen_witness :
  ∃ y', step deployment (Settled Delete Rejected)
          {| ui := ui (session [haiku]); subscription := subscription (session [haiku]);
             inflight := [DeleteDoc "/artifacts/default-app-id/users/u1/prompts/p1"] |}
        = Some y' ∧
        prompts (ui y') = [promptOf haiku] ∧
        render (ui y') = ErrorView "Failed to delete prompt.".
Proof.
  destruct (mutation_failure_takes_the_screen deployment Delete
              {| ui := ui (session [haiku]); subscription := subscription (session [haiku]);
                 inflight := [DeleteDoc "/artifacts/default-app-id/users/u1/prompts/p1"] |}
              [] eq_refl)
    as (y' & H1 & H2 & _ & _ & _ & _ & H7 & _).
  exists y'. split; [exact H1|]. split; [|exact H7].
  rewrite H2. reflexivity.
Defined.

(** C1, as stated, fails.  User [u1] has the prompt [p1] on the screen and
    presses Delete; the request is rejected.  The prompt is still in the
    list, but the interface is gone: the render is the full-screen error
    view, on which the input box that was offered before is offered no
    more. *)
Lemma failed_delete_replaces_interface :
  loadedWith [haiku] = Some (session [haiku]) ∧
  (∃ m, render (ui (session [haiku])) = MainView m) ∧
  offered (render (ui (session [haiku]))) (TypeNew "x") = true ∧
  run deployment [Act (DeletePrompt (VStr "p1")); Settled Delete Rejected]
    (session [haiku]) = Some deleteRejected ∧
  prompts (ui deleteRejected) = prompts (ui (session [haiku])) ∧
  render (ui deleteRejected) = ErrorView "Failed to delete prompt." ∧
  offered (render (ui deleteRejected)) (TypeNew "x") = false ∧
  offered (render (ui deleteRejected)) (StartEdit (promptOf haiku)) = false.
Proof.
  split_and!; try (vm_compute; reflexivity).
  vm_compute. eexists. reflexivity.
Qed.

(** ** The loading signal *)

Lemma step_identity cfg uid e y y' :
  keepsIdentity uid e = true →
  userId (ui y) = Some uid → isInitialized (ui y) = true →
  step cfg e y = Some y' →
  userId (ui y') = Some uid ∧ isInitialized (ui y') = true ∧
  (isLoading (ui y) = false → isLoading (ui y') = false) ∧
  (isSnapshotEvent e = false →
   isLoading (ui y') = isLoading (ui y) ∧ subscription y' = subscription y).
Proof.
  intros Hk Hu Hi H. destruct e; simpl in *; try done.
  - unfold initialize in H. rewrite Hi in H.
    rewrite commit_same in H by done. by inversion H.
  - apply String.eqb_eq in Hk as ->. destruct (isSet _); [|done].
    rewrite commit_same in H by (by rewrite ?Hu). by inversion H.
  - destruct (isSet _); [|done]. rewrite commit_same in H by done. by inversion H.
  - destruct (isSet _); [|done].
    destruct (onSnapshotNext docs (ui y)) as [s'|] eqn:E; simpl in H.
    + apply onSnapshotNext_replaces in E as (_ & Hl & l & _ & ->).
      rewrite commit_same in H by done. by inversion H.
    + rewrite commit_same in H by done. by inversion H.
  - destruct (isSet _); [|done]. by inversion H.
  - destruct (offered _ _); [|done].
    destruct (act_frame cfg i (ui y)) as (Hl & _ & Hd & Hid & _ & Hin).
    rewrite commit_same in H by done. inversion H; subst. simpl.
    rewrite Hl, Hid, Hin. by repeat split.
  - destruct (takeRequest m _); [|done]. simpl in H. inversion H; subst. simpl.
    destruct (settle_frame m o (ui y)) as (-> & _ & -> & _ & ->). by repeat split.
Qed.

Lemma run_stays_loading cfg uid es y y' :
  Forall (λ e, keepsIdentity uid e = true ∧ isSnapshotEvent e = false) es →
  userId (ui y) = Some uid → isInitialized (ui y) = true →
  run cfg es y = Some y' →
  userId (ui y') = Some uid ∧ isInitialized (ui y') = true ∧
  isLoading (ui y') = isLoading (ui y) ∧ subscription y' = subscription y.
Proof.
  intros Hes. revert y.
  induction Hes as [|e es [Hk Hs] _ IH]; simpl; intros y Hu Hi H.
  - inversion H; subst. by repeat split.
  - destruct (step cfg e y) as [y1|] eqn:E; simpl in H; [|done].
    destruct (step_identity _ _ _ _ _ Hk Hu Hi E) as (Hu1 & Hi1 & _ & Hl1).
    destruct (Hl1 Hs) as [Hl Hsub].
    destruct (IH y1 Hu1 Hi1 H) as (? & ? & ? & ?). split_and!; congruence.
Qed.





(** ** The draft of the edit form *)

Lemma commit_editing cfg y after new :
  editingPromptText (ui (commit cfg y after new)) = editingPromptText after ∧
  editingPromptId (ui (commit cfg y after new)) = editingPromptId after.
Proof.
  unfold commit. case_bool_decide; simpl; [done|].
  unfold subscribe. by destruct (ready after).
Qed.

(** While the editing id is null no edit form is on the screen, unless a
    prompt carries a null id. *)
Lemma idle_no_edit_form s (l : list object) :
  editingPromptId s = VNull →
  Forall (λ p, get p "id" ≠ VNull) l →
  existsb isEditForm (renderRow s <$> l) = false.
Proof.
  intros Hid Hp. induction Hp as [|p l Hne _ IH]; [done|].
  rewrite fmap_cons. cbn [existsb]. rewrite IH, orb_false_r. unfold renderRow. rewrite Hid.
  by destruct (get p "id").
Qed.

Lemma idle_offers_no_typing cfg y text :
  editingPromptId (ui y) = VNull →
  Forall (λ p, get p "id" ≠ VNull) (prompts (ui y)) →
  step cfg (Act (TypeEdit text)) y = None.
Proof.
  intros Hid Hp. simpl.
  assert (offered (render (ui y)) (TypeEdit text) = false) as ->; [|done].
  unfold render, renderLibrary.
  destruct (error (ui y)) as [e|]; [destruct (nonempty e); [done|]|];
    (destruct (userId (ui y)); [|done]; destruct (_ || _); [done|]; simpl;
     by apply idle_no_edit_form).
Qed.

(** C10, as the code has it.  Cancel sets the editing id to null and
    nothing else: the draft stays.  A successful update sets the editing id
    to null and the draft to the empty string.  [startEditing] overwrites
    the draft with the text of the prompt.  After a cancel, with the
    editing id null and no prompt of a null id, a step changes the draft
    only if it is a [startEditing], or the success of an update that was
    still awaited, which empties it. *)
Theorem draft_outlives_cancel (cfg : config) (s : State) (y y' : system) (e : event) :
  editingPromptId (ui y) = VNull →
  Forall (λ p, get p "id" ≠ VNull) (prompts (ui y)) →
  step cfg e y = Some y' →
  (cancelEditing s = setEditingPromptId VNull s ∧
   editingPromptId (cancelEditing s) = VNull ∧
   editingPromptText (cancelEditing s) = editingPromptText s) ∧
  (editingPromptId (updateSettled Resolved s) = VNull ∧
   editingPromptText (updateSettled Resolved s) = VStr "") ∧
  (∀ p, editingPromptText (startEditing p (cancelEditing s)) = get p "text") ∧
  (editingPromptText (ui y') = editingPromptText (ui y) ∨
   (∃ p, e = Act (StartEdit p) ∧ editingPromptText (ui y') = get p "text") ∨
   (e = Settled Update Resolved ∧ editingPromptText (ui y') = VStr "" ∧
    ∃ rest, takeRequest Update (inflight y) = Some rest)).
Proof.
  intros Hid Hp H. split_and!; try done.
  destruct e; simpl in H.
  - left. inversion H; subst. rewrite (proj1 (commit_editing _ _ _ _)).
    unfold initialize. destruct (isInitialized _); [done|]. by destruct (_ && _).
  - left. destruct (isSet _); [|done]. inversion H; subst.
    by rewrite (proj1 (commit_editing _ _ _ _)).
  - left. destruct (isSet _); [|done]. inversion H; subst.
    by rewrite (proj1 (commit_editing _ _ _ _)).
  - left. destruct (isSet _); [|done]. inversion H; subst.
    rewrite (proj1 (commit_editing _ _ _ _)).
    destruct (onSnapshotNext docs (ui y)) as [s'|] eqn:E; simpl; [|done].
    by apply onSnapshotNext_replaces in E as (_ & _ & l & _ & ->).
  - left. destruct (isSet _); [|done]. by inversion H.
  - destruct (offered _ _) eqn:Hoff; [|done]. inversion H; subst.
    rewrite (proj1 (commit_editing _ _ _ _)).
    destruct i; simpl; try by left.
    + left. destruct (handleAddPrompt cfg now (ui y)) eqn:E; simpl; try done.
      by apply handleAddPrompt_frame in E as ->.
    + right. left. by exists prompt.
    + left. destruct (handleDeletePrompt cfg promptId (ui y)) eqn:E; simpl; try done.
      by apply handleDeletePrompt_frame in E as ->.
    + pose proof (idle_offers_no_typing cfg y text Hid Hp) as Hno.
      simpl in Hno. by rewrite Hoff in Hno.
    + left. destruct (handleUpdatePrompt cfg (ui y)) eqn:E; simpl; try done.
      by apply handleUpdatePrompt_frame in E as ->.
  - destruct (takeRequest m (inflight y)) as [rest|] eqn:E; simpl in H; [|done].
    inversion H; subst. simpl.
    destruct m, o; simpl; try by left.
    right. right. eauto.
Qed.

(** C10, as stated, fails.  The user has pressed Save and then Cancel; the
    editing id is null and the draft is still there.  When the awaited
    update then succeeds the draft is emptied, and no [startEditing] has
    taken place. *)
Lemma awaited_update_clears_stale_draft :
  run deployment saveThenCancel (session [haiku]) = Some cancelledAwaiting ∧
  editingPromptId (ui cancelledAwaiting) = VNull ∧
  editingPromptText (ui cancelledAwaiting) = VStr "Write a limerick" ∧
  inflight cancelledAwaiting =
    [UpdateDoc "/artifacts/default-app-id/users/u1/prompts/p1"
       {[ "text" := DStr "Write a limerick" ]}] ∧
  step deployment (Settled Update Resolved) cancelledAwaiting = Some cancelledSettled ∧
  editingPromptText (ui cancelledSettled) = VStr "".
Proof. split_and!; vm_compute; reflexivity. Qed.

Lemma draft_outlives_cancel_witness :
  editingPromptId (ui cancelledAwaiting) = VNull ∧
  editingPromptText (ui cancelledAwaiting) = VStr "Write a limerick" ∧
  step deployment (Settled Update Resolved) cancelledAwaiting = Some cancelledSettled ∧
  (editingPromptText (ui cancelledSettled) = editingPromptText (ui cancelledAwaiting) ∨
   (∃ p, Settled Update Resolved = Act (StartEdit p) ∧
         editingPromptText (ui cancelledSettled) = get p "text") ∨
   (Settled Update Resolved = Settled Update Resolved ∧
    editingPromptText (ui cancelledSettled) = VStr "" ∧
    ∃ rest, takeRequest Update (inflight cancelledAwaiting) = Some rest)).
Proof.
  split; [vm_compute; reflexivity|]. split; [vm_compute; reflexivity|].
  split; [vm_compute; reflexivity|].
  apply (draft_outlives_cancel deployment initialState cancelledAwaiting cancelledSettled
           (Settled Update Resolved)).
  - vm_compute. reflexivity.
  - repeat constructor; vm_compute; discriminate.
  - vm_compute. reflexivity.
Defined.

(** ** Updates and the store *)

Lemma decode_lookup refs (fields : gmap string data) k :
  decode refs fields !! k = readBack (refs k) <$> fields !! k.
Proof. unfold decode. rewrite map_lookup_imap. by destruct (fields !! k). Qed.

Lemma promptOf_lookup_ne (d : doc) k : k ≠ "id" → promptOf d !! k = doc_data d !! k.
Proof.
  intros Hk. unfold promptOf, spread.
  rewrite lookup_union, lookup_singleton_ne by done.
  by destruct (doc_data d !! k).
Qed.

(** The document of a snapshot that stands for a stored document. *)
Lemma delivers_lookup (st : gmap (list string) (gmap string data)) c docs id fields :
  delivers st c docs → st !! (c ++ [id]) = Some fields →
  ∃ d refs, d ∈ docs ∧ doc_id d = id ∧ doc_data d = decode refs fields.
Proof.
  intros (_ & Hin & Hall) Hst.
  assert (Hid : id ∈ doc_id <$> docs) by (apply Hall; by eexists).
  apply list_elem_of_fmap in Hid as (d & -> & Hd').
  destruct (Hin d Hd') as (fields' & refs & Hst' & Hdata).
  exists d, refs. split_and!; [done..|]. congruence.
Qed.

Lemma createdAtMillis_decode (d : doc) refs (fields : gmap string data) :
  doc_data d = decode refs fields →
  createdAtMillis (promptOf d) = fields !! "createdAt" ≫= storedMillis.
Proof.
  intros Hd. unfold createdAtMillis, get.
  rewrite promptOf_lookup_ne, Hd, decode_lookup by done.
  by destruct (fields !! "createdAt") as [[]|].
Qed.

(** C5.  With the edit form of the prompt [pid] holding [newText],
    [handleUpdatePrompt] issues one update of the document [pid] of the
    user's collection whose only field is [text].  When the update succeeds
    the stored document is the old one with [text] replaced, and the other
    documents are as before.  In the snapshot that follows, the document
    [pid] gives a prompt whose text is [newText] and whose [createdAt] is
    the one it had in any snapshot before the update; the callback puts
    that prompt in the list. *)
Theorem update_writes_text_only
    (cfg : config) (s : State) (uid pid newText : string)
    (st : gmap (list string) (gmap string data)) (old : gmap string data) :
  ready s = Some uid →
  segment (appId cfg) = true → segment uid = true → segment pid = true →
  editingPromptId s = VStr pid → editingPromptText s = VStr newText →
  blank newText = false →
  st !! (["artifacts"; appId cfg; "users"; uid; "prompts"] ++ [pid]) = Some old →
  let c := ["artifacts"; appId cfg; "users"; uid; "prompts"] in
  let r := UpdateDoc (docPath cfg uid (VStr pid)) {[ "text" := DStr newText ]} in
  handleUpdatePrompt cfg s = Awaiting s r ∧
  collectionRef (collectionPath cfg uid) = Some c ∧
  ∃ st',
    (∀ newId, applyRequest newId r st = Some st') ∧
    st' !! (c ++ [pid]) = Some (<[ "text" := DStr newText ]> old) ∧
    (∀ k, k ≠ c ++ [pid] → st' !! k = st !! k) ∧
    ∀ docs, delivers st' c docs →
      ∃ d, d ∈ docs ∧ doc_id d = pid ∧
           get (promptOf d) "text" = VStr newText ∧
           createdAtMillis (promptOf d) = old !! "createdAt" ≫= storedMillis ∧
           (∀ docs0 d0, delivers st c docs0 → d0 ∈ docs0 → doc_id d0 = pid →
              createdAtMillis (promptOf d0) = createdAtMillis (promptOf d)) ∧
           (∀ s2 s3, onSnapshotNext docs s2 = Some s3 → promptOf d ∈ prompts s3) ∧
           (∀ s2, Forall (λ d, readable (promptOf d)) docs →
              is_Some (onSnapshotNext docs s2)).
Proof.
  intros Hr Ha Hu Hp Hid Htext Hb Hold c r.
  assert (Hkey : docRef (docPath cfg uid (VStr pid)) = Some (c ++ [pid]))
    by by apply docRef_docPath.
  assert (Hcoll : collectionRef (collectionPath cfg uid) = Some c)
    by by apply collectionRef_collectionPath.
  change (st !! (c ++ [pid]) = Some old) in Hold.
  clearbody c.
  split_and!.
  - unfold handleUpdatePrompt.
    rewrite Htext, nonempty_trim, Hb, Hr, Hid. simpl.
    pose proof Hp as [Hne _]%andb_true_iff. unfold nonempty in Hne.
    by rewrite Hne.
  - done.
  - exists (<[c ++ [pid] := <[ "text" := DStr newText ]> old]> st).
    split_and!.
    + intros newId. subst r. unfold applyRequest. rewrite Hkey. simpl.
      rewrite Hold. simpl. by rewrite <- insert_union_singleton_l.
    + by rewrite lookup_insert_eq.
    + intros k Hk. by rewrite lookup_insert_ne.
    + intros docs Hdocs.
      destruct (delivers_lookup _ c docs pid (<[ "text" := DStr newText ]> old) Hdocs)
        as (d & refs & Hd & Hdid & Hdata); [by rewrite lookup_insert_eq|].
      exists d.
      assert (Hc : createdAtMillis (promptOf d) = old !! "createdAt" ≫= storedMillis).
      { rewrite (createdAtMillis_decode d refs _ Hdata).
        by rewrite lookup_insert_ne. }
      split_and!; [done..| |done| | |].
      * unfold get. rewrite promptOf_lookup_ne, Hdata, decode_lookup by done.
        by rewrite lookup_insert_eq.
      * intros docs0 d0 (_ & Hin0 & _) Hd0 Hd0id.
        destruct (Hin0 d0 Hd0) as (fields0 & refs0 & Hst0 & Hdata0).
        rewrite Hd0id, Hold in Hst0.
        inversion Hst0; subst fields0.
        by rewrite Hc, (createdAtMillis_decode d0 refs0 old Hdata0).
      * intros s2 s3 Hs3.
        apply onSnapshotNext_replaces in Hs3 as (Hperm & _).
        rewrite Hperm. apply list_elem_of_fmap. by exists d.
      * intros s2. apply onSnapshotNext_total.
Qed.

Lemma update_writes_text_only_witness :
  handleUpdatePrompt deployment editingHaiku =
    Awaiting editingHaiku
      (UpdateDoc "/artifacts/default-app-id/users/u1/prompts/p1"
         {[ "text" := DStr "Write a limerick" ]}) ∧
  ∃ st',
    applyRequest "" (UpdateDoc "/artifacts/default-app-id/users/u1/prompts/p1"
                       {[ "text" := DStr "Write a limerick" ]}) haikuStore = Some st' ∧
    delivers st' ["artifacts"; "default-app-id"; "users"; "u1"; "prompts"] [limerick] ∧
    get (promptOf limerick) "text" = VStr "Write a limerick" ∧
    createdAtMillis (promptOf limerick) = Some 1000%Z.
Proof.
  destruct (update_writes_text_only deployment editingHaiku "u1" "p1" "Write a limerick"
              haikuStore
              (<[ "text" := DStr "Write a haiku" ]> {[ "createdAt" := DTimestamp 1000 ]})
              ltac:(vm_compute; reflexivity) ltac:(vm_compute; reflexivity)
              ltac:(vm_compute; reflexivity) ltac:(vm_compute; reflexivity)
              ltac:(vm_compute; reflexivity) ltac:(vm_compute; reflexivity)
              ltac:(vm_compute; reflexivity) ltac:(vm_compute; reflexivity))
    as (H1 & _ & st' & H3 & H4 & H5 & H6).
  split; [exact H1|]. exists st'. split; [exact (H3 "")|].
  assert (Hd : delivers st' ["artifacts"; "default-app-id"; "users"; "u1"; "prompts"]
                 [limerick]).
  { split_and!.
    - repeat constructor. by intros ?%elem_of_nil.
    - intros d ->%list_elem_of_singleton.
      eexists _, (λ _, 7). split; [exact H4|]. vm_compute. reflexivity.
    - intros id [x Hx]. destruct (decide (id = "p1")) as [->|Hne].
      + by apply list_elem_of_singleton.
      + assert (Hk : ["artifacts"; "default-app-id"; "users"; "u1"; "prompts"] ++ [id]
                     ≠ ["artifacts"; "default-app-id"; "users"; "u1"; "prompts"] ++ ["p1"]).
        { intros Heq%app_inv_head. congruence. }
        rewrite H5 in Hx by exact Hk.
        unfold haikuStore in Hx. rewrite lookup_singleton_ne in Hx; [done|].
        intros Heq. apply Hk. by rewrite <- Heq. }
  split; [exact Hd|].
  destruct (H6 [limerick] Hd) as (d & ->%list_elem_of_singleton & _ & Ht & Hc & _).
  split; [exact Ht|exact Hc].
Defined.


(** * Further properties of the component *)

(** ** What changes the list *)

(** X2.  The list of prompts changes in one way only: a snapshot arrives and
    its callback completes; the list is then made of the prompts of that
    snapshot, one for each document.  No user action and no settlement of a
    request touches it. *)
Theorem prompts_change_only_by_snapshot (cfg : config) (e : event) (y y' : system) :
  step cfg e y = Some y' →
  prompts (ui y') = prompts (ui y) ∨
  ∃ docs, e = SnapshotNext docs ∧ prompts (ui y') ≡ₚ promptOf <$> docs.
Proof.
  intros H.
  assert (Hc : ∀ after new, prompts (ui (commit cfg y after new)) = prompts after).
  { intros after new. unfold commit. case_bool_decide; simpl; [done|].
    unfold subscribe. by destruct (ready after). }
  destruct e as [ok|uid| |docs| |i|m o]; simpl in H.
  - left. inversion H; subst. rewrite Hc. unfold initialize.
    destruct (isInitialized _); [done|]. by destruct (_ && _).
  - left. destruct (isSet _); [|done]. inversion H; subst. by rewrite Hc.
  - left. destruct (isSet _); [|done]. inversion H; subst. by rewrite Hc.
  - destruct (isSet _); [|done]. inversion H; subst. rewrite Hc.
    destruct (onSnapshotNext docs (ui y)) as [s'|] eqn:E; simpl; [|by left].
    right. exists docs. split; [done|].
    by apply onSnapshotNext_replaces in E as (? & _).
  - left. destruct (isSet _); [|done]. by inversion H.
  - left. destruct (offered _ _); [|done]. inversion H; subst. rewrite Hc.
    by destruct (act_frame cfg i (ui y)) as (_ & _ & _ & _ & ? & _).
  - left. destruct (takeRequest m _); [|done]. simpl in H. inversion H; subst. simpl.
    by destruct (settle_frame m o (ui y)) as (_ & _ & _ & ? & _).
Qed.

Lemma prompts_change_only_by_snapshot_witness :
  prompts (ui deleteRejected) = prompts (ui (session [haiku])) ∨
  ∃ docs, Settled Delete Rejected = SnapshotNext docs ∧
          prompts (ui deleteRejected) ≡ₚ promptOf <$> docs.
Proof.
  destruct (prompts_change_only_by_snapshot deployment (Settled Delete Rejected)
              (default boot (run deployment [Act (DeletePrompt (VStr "p1"))]
                               (session [haiku])))
              deleteRejected ltac:(vm_compute; reflexivity)) as [H|H].
  - left. rewrite H. vm_compute. reflexivity.
  - right. exact H.
Defined.

(** ** The row in edit mode *)

(** X3.  The prompt being edited has neither an Edit nor a Delete button: the
    row of every prompt whose id is strictly equal to the editing id is the
    edit form. *)
Theorem edited_prompt_has_no_buttons (s : State) (p : object) :
  strict_eq (editingPromptId s) (get p "id") = true →
  renderRow s p = EditForm p (editingPromptText s) ∧
  offered (render s) (StartEdit p) = false ∧
  offered (render s) (DeletePrompt (get p "id")) = false.
Proof.
  intros He.
  assert (Hrow : ∀ q, get q "id" = get p "id" → renderRow s q = EditForm q (editingPromptText s)).
  { intros q Hq. unfold renderRow. by rewrite Hq, He. }
  split; [by apply Hrow|].
  assert (Hs : ∀ l : list object, existsb (isRowOf p) (renderRow s <$> l) = false).
  { induction l as [|q l IH]; [done|]. rewrite fmap_cons. cbn [existsb].
    rewrite IH, orb_false_r. unfold renderRow.
    destruct (strict_eq _ (get q "id")) eqn:E; [done|]. simpl.
    apply bool_decide_eq_false. intros ->. congruence. }
  assert (Hd : ∀ l : list object,
            existsb (hasDeleteFor (get p "id")) (renderRow s <$> l) = false).
  { induction l as [|q l IH]; [done|]. rewrite fmap_cons. cbn [existsb].
    rewrite IH, orb_false_r. unfold renderRow.
    destruct (strict_eq _ (get q "id")) eqn:E; [done|]. simpl.
    apply bool_decide_eq_false. intros Hq. rewrite Hq in E. congruence. }
  unfold render, renderLibrary.
  destruct (error s) as [e|]; [destruct (nonempty e); [done|]|];
    (destruct (userId s); [|done]; destruct (_ || _); [done|]; simpl; auto).
Qed.

Lemma edited_prompt_has_no_buttons_witness :
  offered (render (ui (session [haiku]))) (DeletePrompt (VStr "p1")) = true ∧
  offered (render (startEditing (promptOf haiku) (ui (session [haiku]))))
    (DeletePrompt (get (promptOf haiku) "id")) = false.
Proof.
  split; [vm_compute; reflexivity|].
  apply (edited_prompt_has_no_buttons
           (startEditing (promptOf haiku) (ui (session [haiku]))) (promptOf haiku)).
  vm_compute. reflexivity.
Defined.

(** ** Errors *)

(** X5.  Every error is fatal and stays: after a rejected sign-in, a failed
    subscription, a rejected request or a failed initialisation, the view
    is the error view with no control on it, and so it is after any
    further events. *)
Theorem every_error_is_terminal
    (cfg : config) (e : event) (y y1 : system) (es : list event) (y2 : system) :
  raisesError cfg e y = true →
  step cfg e y = Some y1 → run cfg es y1 = Some y2 →
  (∃ msg, render (ui y1) = ErrorView msg) ∧
  (∃ msg, render (ui y2) = ErrorView msg) ∧
  (∀ i, offered (render (ui y2)) i = false) ∧
  (∀ i, step cfg (Act i) y2 = None).
Proof.
  intros Hr H1 H2.
  assert (Hf : failed (ui y1)).
  { assert (Hc : ∀ after new, failed after → failed (ui (commit cfg y after new))).
    { intros after new Ha. unfold commit, subscribe.
      case_bool_decide; simpl; [done|]. by destruct (ready after). }
    destruct e as [ok|uid| |docs| |i|m o]; simpl in *; try done.
    - inversion H1; subst. apply Hc. unfold initialize.
      destruct (isInitialized (ui y)); [done|]. simpl in Hr.
      apply negb_true_iff in Hr. rewrite Hr. simpl. by eexists.
    - destruct (isSet _); [|done]. inversion H1; subst. apply Hc. by eexists.
    - destruct (isSet _); [|done]. inversion H1; subst. by eexists.
    - destruct o; [done|]. destruct (takeRequest m _); [|done].
      simpl in H1. inversion H1; subst. simpl. destruct m; by eexists. }
  assert (Hf2 : failed (ui y2)) by by eapply run_failed.
  destruct Hf as (m1 & He1 & Hn1), Hf2 as (m2 & He2 & Hn2).
  destruct (render_error _ _ He1 Hn1) as [Hr1 _].
  destruct (render_error _ _ He2 Hn2) as [Hr2 Hoff].
  split_and!; eauto.
  intros i. simpl. by rewrite Hoff.
Qed.

Lemma every_error_is_terminal_witness :
  (∃ msg, render (ui deleteRejected) = ErrorView msg) ∧
  step deployment (Act (TypeNew "x")) deleteRejected = None.
Proof.
  destruct (every_error_is_terminal deployment (Settled Delete Rejected)
              (default boot (run deployment [Act (DeletePrompt (VStr "p1"))]
                               (session [haiku])))
              deleteRejected [] deleteRejected
              eq_refl ltac:(vm_compute; reflexivity) eq_refl)
    as (_ & H2 & _ & H4).
  split; [exact H2|apply H4].
Defined.

(** X6.  Without the configuration object (or when the SDK throws) the first
    mount sets the configuration error and ends loading; no store handle
    is ever set, and from then on nothing can happen but further mounts,
    which do nothing: no subscription is ever opened and no request is
    ever issued. *)
Theorem failed_initialization_freezes (cfg : config) (sdk_ok : bool) :
  firebase_config cfg && sdk_ok = false →
  ∃ y0, step cfg (Mount sdk_ok) boot = Some y0 ∧
        error (ui y0) = Some "Could not connect to the backend. Please check configuration." ∧
        isLoading (ui y0) = false ∧ db (ui y0) = None ∧ auth (ui y0) = None ∧
        subscription y0 = None ∧ inflight y0 = [] ∧
        ∀ es y, run cfg es y0 = Some y → y = y0.
Proof.
  intros Hc.
  set (y0 := {| ui := setIsLoading false
                  (setError (Some "Could not connect to the backend. Please check configuration.")
                     (setInitialized true initialState));
                subscription := None; inflight := [] |}).
  assert (E : step cfg (Mount sdk_ok) boot = Some y0).
  { simpl. unfold initialize. simpl. rewrite Hc. by rewrite commit_same. }
  exists y0. split_and!; try done.
  induction es as [|e es IH]; simpl; intros y H.
  - by inversion H.
  - destruct e as [ok|uid| |docs| |i|m o]; simpl in H; try done.
    replace (commit cfg y0 (initialize cfg ok (ui y0)) []) with y0 in H by done.
    by apply IH.
Qed.

Lemma failed_initialization_freezes_witness :
  ∃ y0, step unconfigured (Mount true) boot = Some y0 ∧
        render (ui y0) = ErrorView "Could not connect to the backend. Please check configuration." ∧
        step unconfigured (AuthUser "u1") y0 = None.
Proof.
  destruct (failed_initialization_freezes unconfigured true eq_refl)
    as (y0 & H1 & _).
  exists y0. split; [exact H1|].
  vm_compute in H1. injection H1 as <-. split; vm_compute; reflexivity.
Defined.

(** ** Creates in flight *)

Lemma creates_app l l' : creates (l ++ l') = creates l ++ creates l'.
Proof. apply filter_app. Qed.

Lemma creates_cons r l :
  creates (r :: l) = if sameKind Add r then r :: creates l else creates l.
Proof.
  unfold creates. destruct (sameKind Add r) eqn:E.
  - by rewrite filter_cons_True.
  - rewrite filter_cons_False; [done|]. by rewrite E.
Qed.

(** Settling a request of kind [m] takes one create away when [m] is a
    create, and none otherwise. *)
Lemma takeRequest_creates m l rest :
  takeRequest m l = Some rest →
  match m with
  | Add => ∃ r, creates l = r :: creates rest
  | _ => creates rest = creates l
  end.
Proof.
  revert rest. induction l as [|r l IH]; simpl; intros rest H; [done|].
  rewrite creates_cons. destruct (sameKind m r) eqn:E.
  - inversion H; subst. destruct m, r; try done; simpl; eauto.
  - destruct (takeRequest m l) as [rest'|]; simpl in H; [|done].
    inversion H; subst. specialize (IH rest' eq_refl). rewrite creates_cons.
    destruct m, r; try done; simpl; first [done | by rewrite IH].
Qed.

Lemma step_oneCreate cfg e y y' :
  oneCreate cfg y → step cfg e y = Some y' → oneCreate cfg y'.
Proof.
  unfold oneCreate. intros Hinv H.
  assert (Hc : ∀ after, isSubmitting after = isSubmitting (ui y) →
                  newPrompt after = newPrompt (ui y) →
                  Some (commit cfg y after []) = Some y' →
                  if isSubmitting (ui y')
                  then ∃ uid now,
                      creates (inflight y') =
                      [AddDoc (collectionPath cfg uid)
                         (<[ "text" := DStr (newPrompt (ui y')) ]>
                            {[ "createdAt" := DTimestamp now ]})]
                  else creates (inflight y') = []).
  { intros after Hs Hn [= <-]. unfold commit, subscribe.
    case_bool_decide; simpl; rewrite ?app_nil_r.
    - by rewrite Hs, Hn.
    - destruct (ready after); simpl; by rewrite Hs, Hn. }
  destruct e as [ok|uid| |docs| |i|m o]; simpl in H.
  - apply (Hc (initialize cfg ok (ui y))); [..|done];
      unfold initialize; destruct (isInitialized _); try done; by destruct (_ && _).
  - destruct (isSet _); [|done]. by apply (Hc (onAuthUser uid (ui y))).
  - destruct (isSet _); [|done]. by apply (Hc (onAuthError (ui y))).
  - destruct (isSet _); [|done].
    apply (Hc (default (ui y) (onSnapshotNext docs (ui y)))); [..|done];
      destruct (onSnapshotNext docs (ui y)) as [s'|] eqn:E; simpl; try done;
      by apply onSnapshotNext_replaces in E as (_ & _ & l & _ & ->).
  - destruct (isSet _); [|done]. by inversion H; subst.
  - destruct (offered (render (ui y)) i) eqn:Hoff; [|done].
    assert (Hm : ∃ m, render (ui y) = MainView m ∧
                      textareaDisabled m = isSubmitting (ui y) ∧
                      (addDisabled m = false → isSubmitting (ui y) = false)).
    { unfold render, renderLibrary in *.
      destruct (error (ui y)) as [msg|]; [destruct (nonempty msg); [done|]|];
        (destruct (userId (ui y)); [|done]; destruct (_ || _); [done|];
         eexists; split; [done|]; simpl; split; [done|];
         by intros [? _]%orb_false_iff). }
    destruct Hm as (mv & Hmv & Hta & Had). rewrite Hmv in Hoff.
    destruct i as [t|n|p|id|t| |]; simpl in *.
    + apply negb_true_iff in Hoff. rewrite Hta in Hoff. rewrite Hoff in Hinv.
      inversion H; subst. unfold commit. rewrite bool_decide_eq_true_2 by done.
      simpl. by rewrite Hoff, app_nil_r.
    + apply negb_true_iff in Hoff. specialize (Had Hoff). rewrite Had in Hinv.
      inversion H; subst. unfold commit, handleAddPrompt.
      destruct (negb (nonempty (trim (newPrompt (ui y))))); simpl.
      { rewrite bool_decide_eq_true_2 by done. simpl. by rewrite Had, app_nil_r. }
      destruct (ready (ui y)) as [uid|]; simpl.
      * rewrite bool_decide_eq_true_2 by done. simpl.
        exists uid, n. rewrite creates_app, Hinv. simpl.
        unfold creates. by rewrite filter_cons_True.
      * rewrite bool_decide_eq_true_2 by done. simpl. by rewrite Had, app_nil_r.
    + by apply (Hc (startEditing p (ui y))).
    + inversion H; subst. unfold commit.
      destruct (handleDeletePrompt cfg id (ui y)) as [| |s1 q] eqn:E; simpl.
      * rewrite bool_decide_eq_true_2 by done. simpl. by rewrite app_nil_r.
      * rewrite bool_decide_eq_true_2 by done. simpl. by rewrite app_nil_r.
      * pose proof E as ->%handleDeletePrompt_frame.
        rewrite bool_decide_eq_true_2 by done. simpl. rewrite creates_app.
        unfold handleDeletePrompt in E. destruct (ready (ui y)); [|done].
        destruct (truthy id); [|done]. inversion E; subst.
        unfold creates at 2 4. rewrite filter_cons_False by done.
        by rewrite filter_nil, app_nil_r.
    + by apply (Hc (setEditingPromptText (VStr t) (ui y))).
    + by apply (Hc (cancelEditing (ui y))).
    + inversion H; subst. unfold commit.
      destruct (handleUpdatePrompt cfg (ui y)) as [| |s1 q] eqn:E; simpl.
      * rewrite bool_decide_eq_true_2 by done. simpl. by rewrite app_nil_r.
      * rewrite bool_decide_eq_true_2 by done. simpl. by rewrite app_nil_r.
      * pose proof E as ->%handleUpdatePrompt_frame.
        rewrite bool_decide_eq_true_2 by done. simpl. rewrite creates_app.
        unfold handleUpdatePrompt in E.
        destruct (editingPromptText (ui y)); try done.
        destruct (negb _); [done|]. destruct (ready (ui y)); [|done].
        destruct (truthy _); [|done]. inversion E; subst.
        unfold creates at 2 4. rewrite filter_cons_False by done.
        by rewrite filter_nil, app_nil_r.
  - destruct (takeRequest m (inflight y)) as [rest|] eqn:E; simpl in H; [|done].
    inversion H; subst. simpl. apply takeRequest_creates in E.
    destruct m.
    + destruct E as [r E]. destruct (isSubmitting (ui y)).
      * destruct Hinv as (uid & now & Hinv). rewrite Hinv in E.
        inversion E; subst. by destruct o.
      * by rewrite Hinv in E.
    + rewrite E. by destruct o.
    + rewrite E. by destruct o.
Qed.

(** X7.  At most one create is awaited at any time, and it is the create of the
    text in the input box: the submitting flag is up exactly while a
    create is awaited, and while it is up the Add button and the input box
    are disabled, so that the text cannot change under the request. *)
Theorem one_create_in_flight (cfg : config) (es : list event) (y : system) :
  run cfg es boot = Some y →
  length (creates (inflight y)) ≤ 1 ∧
  (isSubmitting (ui y) = true ↔ creates (inflight y) ≠ []) ∧
  (isSubmitting (ui y) = true →
   (∃ uid now,
      creates (inflight y) =
      [AddDoc (collectionPath cfg uid)
         (<[ "text" := DStr (newPrompt (ui y)) ]> {[ "createdAt" := DTimestamp now ]})]) ∧
   (∀ now, offered (render (ui y)) (SubmitAdd now) = false) ∧
   (∀ text, offered (render (ui y)) (TypeNew text) = false)).
Proof.
  intros H.
  assert (Hinv : oneCreate cfg y).
  { assert (Hgen : ∀ y0, oneCreate cfg y0 → run cfg es y0 = Some y → oneCreate cfg y).
    { clear H. induction es as [|e es IH]; simpl; intros y0 H0 H.
      - by inversion H; subst.
      - destruct (step cfg e y0) as [y1|] eqn:E; simpl in H; [|done].
        apply (IH y1); [|done]. by eapply step_oneCreate. }
    by apply (Hgen boot). }
  unfold oneCreate in Hinv.
  destruct (isSubmitting (ui y)) eqn:Hs.
  - destruct Hinv as (uid & now & Hinv). rewrite Hinv. simpl.
    split_and!; [lia|done|]. intros _. split_and!; [by eauto|..];
      intros ?; unfold render, renderLibrary;
      (destruct (error (ui y)) as [msg|]; [destruct (nonempty msg); [done|]|];
       (destruct (userId (ui y)); [|done]; destruct (_ || _); [done|]; simpl;
        by rewrite Hs)).
  - rewrite Hinv. simpl. split_and!; [lia|done|done].
Qed.

Lemma one_create_in_flight_witness :
  run deployment
    [Mount true; AuthUser "u1"; SnapshotNext [];
     Act (TypeNew "Write a haiku"); Act (SubmitAdd 1000)] boot = Some adding ∧
  isSubmitting (ui adding) = true ∧
  length (creates (inflight adding)) ≤ 1 ∧
  step deployment (Act (SubmitAdd 2000)) adding = None.
Proof.
  assert (H : run deployment
                [Mount true; AuthUser "u1"; SnapshotNext [];
                 Act (TypeNew "Write a haiku"); Act (SubmitAdd 1000)] boot = Some adding)
    by (vm_compute; reflexivity).
  destruct (one_create_in_flight deployment _ adding H) as (H1 & _ & H3).
  assert (Hs : isSubmitting (ui adding) = true) by (vm_compute; reflexivity).
  destruct (H3 Hs) as (_ & Hoff & _).
  split; [exact H|]. split; [exact Hs|]. split; [exact H1|].
  unfold step. rewrite (Hoff 2000%Z). reflexivity.
Defined.

(** ** Handles and identity *)

Lemma act_handles cfg i s :
  auth (act cfg i s).1 = auth s ∧ db (act cfg i s).1 = db s ∧
  userId (act cfg i s).1 = userId s.
Proof.
  destruct i as [t|n|p|id|t| |]; simpl; try done.
  - destruct (handleAddPrompt cfg n s) eqn:E; simpl; try done.
    by apply handleAddPrompt_frame in E as ->.
  - destruct (handleDeletePrompt cfg id s) eqn:E; simpl; try done.
    by apply handleDeletePrompt_frame in E as ->.
  - destruct (handleUpdatePrompt cfg s) eqn:E; simpl; try done.
    by apply handleUpdatePrompt_frame in E as ->.
Qed.

Lemma step_wired cfg e y y' : wired (ui y) → step cfg e y = Some y' → wired (ui y').
Proof.
  intros Hw H.
  assert (Hc : ∀ after new, wired after → wired (ui (commit cfg y after new))).
  { intros after new Ha. unfold commit, subscribe.
    case_bool_decide; simpl; [done|]. by destruct (ready after). }
  destruct e as [ok|uid| |docs| |i|m o]; simpl in H.
  - inversion H; subst. apply Hc. unfold initialize.
    destruct (isInitialized _); [done|].
    destruct (_ && _); [|done]. split; by eauto.
  - destruct (isSet (auth (ui y))) eqn:Ha; [|done]. inversion H; subst. apply Hc.
    destruct Hw as [_ Hw]. split; simpl; [|done].
    intros _. by destruct (auth (ui y)).
  - destruct (isSet _); [|done]. inversion H; subst. by apply Hc.
  - destruct (isSet _); [|done]. inversion H; subst. apply Hc.
    destruct (onSnapshotNext docs (ui y)) as [s'|] eqn:E; simpl; [|done].
    by apply onSnapshotNext_replaces in E as (_ & _ & l & _ & ->).
  - destruct (isSet _); [|done]. by inversion H; subst.
  - destruct (offered _ _); [|done]. inversion H; subst. apply Hc.
    destruct (act_handles cfg i (ui y)) as (Ha & Hd & Hu).
    unfold wired. by rewrite Ha, Hd, Hu.
  - destruct (takeRequest m _); [|done]. simpl in H. inversion H; subst. simpl.
    by destruct m, o.
Qed.

Lemma run_wired cfg es y y' : wired (ui y) → run cfg es y = Some y' → wired (ui y').
Proof.
  revert y. induction es as [|e es IH]; simpl; intros y Hw H.
  - by inversion H; subst.
  - destruct (step cfg e y) as [y1|] eqn:E; simpl in H; [|done].
    apply (IH y1); [|done]. by eapply step_wired.
Qed.

(** X8.  Whenever the library is on the screen, identity and store are in
    place, so the guards of the handlers agree with the buttons: an Add
    button that is enabled, once pressed, raises the submitting flag and
    issues the insert of the text of the input box into the collection of
    the user shown. *)
Theorem enabled_add_button_issues_insert
    (cfg : config) (es : list event) (y : system) (now : Z) :
  run cfg es boot = Some y →
  offered (render (ui y)) (SubmitAdd now) = true →
  ∃ uid m,
    render (ui y) = MainView m ∧ shownUserId m = uid ∧ ready (ui y) = Some uid ∧
    step cfg (Act (SubmitAdd now)) y =
    Some {| ui := setIsSubmitting true (ui y);
            subscription := subscription y;
            inflight := inflight y ++
              [AddDoc (collectionPath cfg uid)
                 (<[ "text" := DStr (newPrompt (ui y)) ]>
                    {[ "createdAt" := DTimestamp now ]})] |}.
Proof.
  intros Hrun Hoff.
  assert (Hw : wired (ui y)).
  { apply (run_wired cfg es boot); [|done]. split; by intros [? ?]. }
  destruct Hw as [Hw1 Hw2].
  assert (Hm : ∃ uid m, render (ui y) = MainView m ∧ shownUserId m = uid ∧
                        userId (ui y) = Some uid ∧ nonempty uid = true ∧
                        addDisabled m =
                        isSubmitting (ui y) || negb (nonempty (trim (newPrompt (ui y))))).
  { unfold render, renderLibrary in *.
    destruct (error (ui y)) as [msg|]; [destruct (nonempty msg); [done|]|];
      (destruct (userId (ui y)) as [uid|]; [|done];
       destruct (isLoading (ui y)); [done|]; simpl in *;
       destruct (nonempty uid) eqn:Hn; [|done]; simpl in *; by eauto 10). }
  destruct Hm as (uid & m & Hr & Hshown & Hu & Hn & Had).
  assert (Hready : ready (ui y) = Some uid).
  { unfold ready. rewrite Hu, Hn.
    destruct (db (ui y)) eqn:Hd; [done|].
    destruct Hw2 as [? ?]; [|done]. apply Hw1. by rewrite Hu. }
  exists uid, m. split_and!; try done.
  unfold step. rewrite Hoff.
  rewrite Hr in Hoff. simpl in Hoff. apply negb_true_iff in Hoff.
  rewrite Had in Hoff. apply orb_false_iff in Hoff as [Hs Hb].
  unfold act, handleAddPrompt. rewrite Hb, Hready. simpl.
  by rewrite commit_same.
Qed.

Lemma enabled_add_button_issues_insert_witness :
  ∃ uid m,
    render (setNewPrompt "Write a haiku" (ui (session []))) = MainView m ∧
    shownUserId m = uid ∧ uid = "u1" ∧
    step deployment (Act (SubmitAdd 1000))
      (default boot (run deployment [Act (TypeNew "Write a haiku")] (session []))) =
    Some adding.
Proof.
  destruct (enabled_add_button_issues_insert deployment
              [Mount true; AuthUser "u1"; SnapshotNext []; Act (TypeNew "Write a haiku")]
              (default boot (run deployment [Act (TypeNew "Write a haiku")] (session [])))
              1000 ltac:(vm_compute; reflexivity) ltac:(vm_compute; reflexivity))
    as (uid & m & Hr & Hs & Hready & Hstep).
  exists uid, m. split_and!.
  - rewrite <- Hr. vm_compute. reflexivity.
  - exact Hs.
  - vm_compute in Hready. congruence.
  - rewrite Hstep. vm_compute in Hready. injection Hready as <-.
    vm_compute. reflexivity.
Defined.

(** ** Snapshots the comparator cannot read *)

Lemma sortCompare_unreadable p q :
  ¬ readable p ∨ ¬ readable q → sortCompare p q = None.
Proof.
  unfold readable, sortCompare, compareFn.
  destruct (optMillis (get q "createdAt")), (optMillis (get p "createdAt"));
    simpl; try done; intros [H|H]; exfalso; apply H; by eexists.
Qed.

Lemma sortFrom_unreadable_head x acc l :
  ¬ readable x → l ≠ [] → sortFrom (x :: acc) l = None.
Proof.
  intros Hx Hl. destruct l as [|z l]; [done|]. simpl.
  rewrite sortCompare_unreadable; [done|]. by left.
Qed.

Lemma sortFrom_unreadable acc l :
  Forall readable acc → Exists (λ p, ¬ readable p) l →
  acc ≠ [] ∨ 2 ≤ length l → sortFrom acc l = None.
Proof.
  intros Ha Hex. revert acc Ha.
  induction Hex as [x l Hx|x l Hex IH]; intros acc Ha Hlen.
  - destruct acc as [|y acc]; simpl.
    + apply sortFrom_unreadable_head; [done|].
      destruct Hlen as [?|Hlen]; [done|]. destruct l; [simpl in Hlen; lia|done].
    + rewrite sortCompare_unreadable; [done|]. by right.
  - destruct (decide (readable x)) as [Hx|Hx].
    + simpl. destruct (insertBack_total x acc Hx Ha) as [acc' E]. rewrite E. simpl.
      pose proof (insertBack_perm _ _ _ E) as Hp.
      apply IH.
      * rewrite Hp. by constructor.
      * left. intros ->. by apply Permutation_nil_cons in Hp.
    + destruct acc as [|y acc]; simpl.
      * apply sortFrom_unreadable_head; [done|]. by inversion Hex.
      * rewrite sortCompare_unreadable; [done|]. by right.
Qed.

(** X9.  A snapshot of two or more documents, one of which has a [createdAt]
    that is neither a timestamp nor null, makes the callback throw in the
    sort: no setter runs, and the system is left exactly as it was, the
    loading signal included.  A snapshot of one document never reaches the
    comparator: whatever its [createdAt], it is presented. *)
Theorem snapshot_with_unreadable_createdAt_is_dropped
    (cfg : config) (docs : list doc) (y : system) :
  Exists (λ d, ¬ readable (promptOf d)) docs → 2 ≤ length docs →
  is_Some (subscription y) →
  onSnapshotNext docs (ui y) = None ∧
  step cfg (SnapshotNext docs) y = Some y ∧
  ∀ d, onSnapshotNext [d] (ui y) =
       Some (setIsLoading false (setPrompts [promptOf d] (ui y))).
Proof.
  intros Hex Hlen [path Hsub].
  assert (Hn : onSnapshotNext docs (ui y) = None).
  { unfold onSnapshotNext, sort. rewrite sortFrom_unreadable; [done|constructor| |].
    - by apply Exists_fmap.
    - right. by rewrite length_fmap. }
  split_and!; [done| |done].
  unfold step. rewrite Hsub, Hn. simpl. rewrite commit_same by done.
  destruct y. simpl. by rewrite app_nil_r.
Qed.

Lemma snapshot_with_unreadable_createdAt_is_dropped_witness :
  onSnapshotNext [haiku; misdated] (ui (session [sonnet])) = None ∧
  step deployment (SnapshotNext [haiku; misdated]) (session [sonnet])
  = Some (session [sonnet]) ∧
  prompts (ui (session [sonnet])) = [promptOf sonnet].
Proof.
  destruct (snapshot_with_unreadable_createdAt_is_dropped deployment [haiku; misdated]
              (session [sonnet])) as (H1 & H2 & _).
  - apply Exists_cons_tl, Exists_cons_hd. intros [x Hx]. vm_compute in Hx. discriminate.
  - simpl. lia.
  - vm_compute. by eexists.
  - split; [exact H1|]. split; [exact H2|]. vm_compute. reflexivity.
Defined.

(** ** Dated snapshots *)

(** X10.  When every document of the snapshot carries a timestamp, the callback
    completes, and the list it presents holds the prompts of the snapshot
    in descending order of [createdAt]. *)
Theorem dated_snapshot_is_sorted (docs : list doc) (s : State) :
  Forall (λ d, timestamped (promptOf d)) docs →
  ∃ s', onSnapshotNext docs s = Some s' ∧
        sortedDescending (prompts s') ∧
        prompts s' ≡ₚ promptOf <$> docs ∧
        isLoading s' = false.
Proof.
  intros H. destruct (sort_sorted (promptOf <$> docs)) as (l & E & Hs & Hp).
  { by apply Forall_fmap. }
  unfold onSnapshotNext. rewrite E. simpl. eexists. by split_and!.
Qed.

Lemma dated_snapshot_is_sorted_witness :
  ∃ s', onSnapshotNext [haiku; sonnet; twin] initialState = Some s' ∧
        sortedDescending (prompts s') ∧
        prompts s' ≡ₚ promptOf <$> [haiku; sonnet; twin].
Proof.
  destruct (dated_snapshot_is_sorted [haiku; sonnet; twin] initialState)
    as (s' & H1 & H2 & H3 & _).
  - repeat constructor; vm_compute; by eexists.
  - exists s'. exact (conj H1 (conj H2 H3)).
Defined.

(** ** Ties *)

Lemma filter_rev {A} (P : A → Prop) `{!∀ x, Decision (P x)} (l : list A) :
  filter P (rev l) = rev (filter P l).
Proof.
  induction l as [|x l IH]; simpl; [done|].
  rewrite filter_app, IH, filter_cons. destruct (decide (P x)); simpl.
  - by rewrite filter_cons_True, filter_nil.
  - by rewrite filter_cons_False, filter_nil, app_nil_r.
Qed.

Lemma sortCompare_positive y x v :
  sortCompare y x = Some v → (0 < v)%Z → createdAtMillis x ≠ createdAtMillis y.
Proof.
  unfold sortCompare, compareFn, createdAtMillis.
  destruct (get x "createdAt"), (get y "createdAt"); simpl; try done;
    intros [= <-] Hv; try lia.
  intros [= ->]. lia.
Qed.

Lemma insertBack_stable k x acc r :
  insertBack x acc = Some r →
  filter (stampedAt k) r = filter (stampedAt k) (x :: acc).
Proof.
  revert r. induction acc as [|y acc IH]; simpl; intros r H.
  - by inversion H.
  - destruct (sortCompare y x) as [v|] eqn:E; simpl in H; [|done].
    destruct (0 <? v)%Z eqn:Hv; [|by inversion H].
    destruct (insertBack x acc) as [r'|]; simpl in H; [|done].
    inversion H; subst. apply Z.ltb_lt in Hv.
    pose proof (sortCompare_positive _ _ _ E Hv) as Hne.
    rewrite (filter_cons _ y r'), (IH r' eq_refl), !filter_cons.
    unfold stampedAt in *.
    destruct (decide (createdAtMillis y = k)), (decide (createdAtMillis x = k));
      try done. congruence.
Qed.

Lemma sortFrom_stable k acc l r :
  sortFrom acc l = Some r →
  filter (stampedAt k) r = rev (filter (stampedAt k) acc) ++ filter (stampedAt k) l.
Proof.
  revert acc r. induction l as [|x l IH]; simpl; intros acc r H.
  - inversion H; subst. by rewrite filter_rev, app_nil_r.
  - destruct (insertBack x acc) as [acc'|] eqn:E; simpl in H; [|done].
    rewrite (IH _ _ H), (insertBack_stable k _ _ _ E), !filter_cons.
    destruct (decide (stampedAt k x)); simpl; [|done].
    by rewrite <- app_assoc.
Qed.

(** X11.  The sort is stable as the callback uses it: when every document
    carries a timestamp, the prompts of one and the same [createdAt] are
    presented in the order in which the snapshot has them. *)
Theorem ties_keep_snapshot_order (docs : list doc) (s s' : State) (millis : Z) :
  Forall (λ d, timestamped (promptOf d)) docs →
  onSnapshotNext docs s = Some s' →
  filter (stampedAt (Some millis)) (prompts s')
  = filter (stampedAt (Some millis)) (promptOf <$> docs).
Proof.
  intros _ H. apply onSnapshotNext_replaces in H as (_ & _ & l & Hsort & ->).
  simpl. by rewrite (sortFrom_stable (Some millis) [] _ _ Hsort).
Qed.

Lemma ties_keep_snapshot_order_witness :
  filter (stampedAt (Some 1000%Z))
    (prompts (ui (session [haiku; sonnet; twin])))
  = [promptOf haiku; promptOf twin].
Proof.
  rewrite (ties_keep_snapshot_order [haiku; sonnet; twin]
             (ui (default boot (run deployment [Mount true; AuthUser "u1"] boot)))
             (ui (session [haiku; sonnet; twin])) 1000%Z).
  - vm_compute. reflexivity.
  - repeat constructor; vm_compute; by eexists.
  - vm_compute. reflexivity.
Defined.

(** ** Isolation of users and deployments *)



(** ** Saving a prompt that has no text *)

(** X13.  [startEditing] copies [prompt.text] into the draft as it is.  For a
    prompt whose [text] is not a string the draft is not a string either,
    and Save then throws at [editingPromptText.trim()], before the [try]:
    no request is issued, no error message is set, and the edit form stays
    open.  Once the user types in the edit box the draft is a string and
    Save no longer throws. *)
Theorem save_without_text_throws (cfg : config) (s : State) (p : object) :
  (∀ text, get p "text" ≠ VStr text) →
  handleUpdatePrompt cfg (startEditing p s) = Threw ∧
  act cfg SubmitUpdate (startEditing p s) = (startEditing p s, []) ∧
  error (startEditing p s) = error s ∧
  editingPromptId (startEditing p s) = get p "id" ∧
  ∀ text, handleUpdatePrompt cfg (setEditingPromptText (VStr text) (startEditing p s))
          ≠ Threw.
Proof.
  intros Hp.
  assert (Ht : handleUpdatePrompt cfg (startEditing p s) = Threw).
  { unfold handleUpdatePrompt. simpl.
    destruct (get p "text") as [| |text|] eqn:E; try done. by destruct (Hp text). }
  split_and!; try done.
  - simpl. by rewrite Ht.
  - intros text. unfold handleUpdatePrompt. simpl.
    destruct (negb _); [done|]. destruct (ready _); [|done]. by destruct (truthy _).
Qed.

Lemma save_without_text_throws_witness :
  get (promptOf textless) "text" = VUndefined ∧
  act deployment SubmitUpdate (startEditing (promptOf textless) (ui (session [textless])))
  = (startEditing (promptOf textless) (ui (session [textless])), []).
Proof.
  split; [vm_compute; reflexivity|].
  apply (save_without_text_throws deployment (ui (session [textless])) (promptOf textless)).
  intros text H. vm_compute in H. discriminate H.
Defined.

(** ** The auth callback *)

(** X14.  A second report of the user who is already signed in changes nothing:
    the state is the same, the dependencies of the subscription effect are
    the same, and the subscription is left alone. *)
Theorem repeated_auth_is_no_op (cfg : config) (y : system) (uid : string) :
  is_Some (auth (ui y)) → userId (ui y) = Some uid →
  step cfg (AuthUser uid) y = Some y.
Proof.
  intros [h Ha] Hu. unfold step. rewrite Ha. simpl.
  rewrite commit_same by (by rewrite ?Hu).
  destruct y as [s sub fl]. simpl in *. rewrite app_nil_r.
  do 2 f_equal. destruct s. simpl in *. by subst.
Qed.

Lemma repeated_auth_is_no_op_witness :
  step deployment (AuthUser "u1") (session [haiku]) = Some (session [haiku]).
Proof.
  apply (repeated_auth_is_no_op deployment (session [haiku]) "u1").
  - vm_compute. by eexists.
  - vm_compute. reflexivity.
Defined.

Lemma main_view_components s m :
  render s = MainView m →
  ∃ uid, userId s = Some uid ∧ nonempty uid = true ∧ isLoading s = false ∧
         m = {| shownUserId := uid; textareaValue := newPrompt s;
                textareaDisabled := isSubmitting s;
                addDisabled := isSubmitting s || negb (nonempty (trim (newPrompt s)));
                rows := renderRow s <$> prompts s |}.
Proof.
  unfold render, renderLibrary.
  destruct (error s) as [msg|]; [destruct (nonempty msg); [done|]|];
    (destruct (userId s) as [uid|]; [|done];
     destruct (isLoading s); [done|]; simpl;
     destruct (nonempty uid) eqn:Hn; [|done]; simpl;
     intros [= <-]; by exists uid).
Qed.

(** X15.  Another user signs in while the library is on the screen.  The
    callback sets the user id and nothing else, and React renders the
    component with that state before it runs the effects of the render: the
    library is drawn once more, with the id of the new user in the header
    over the rows of the previous user.  The subscription effect then runs:
    the loading signal goes up, the subscription moves to the collection of
    the new user, and the loading view takes the screen.  From there the
    library is not rendered until a snapshot of the new collection has been
    taken in, and that snapshot replaces the whole list. *)
Theorem new_user_sees_previous_prompts_once
    (cfg : config) (y : system) (uid : string) (m : mainView) :
  isInitialized (ui y) = true →
  is_Some (auth (ui y)) → is_Some (db (ui y)) →
  render (ui y) = MainView m → shownUserId m ≠ uid → nonempty uid = true →
  is_Some (collectionRef (collectionPath cfg uid)) →
  rows m = renderRow (ui y) <$> prompts (ui y) ∧
  render (onAuthUser uid (ui y)) =
    MainView {| shownUserId := uid; textareaValue := textareaValue m;
                textareaDisabled := textareaDisabled m; addDisabled := addDisabled m;
                rows := rows m |} ∧
  ∃ y', step cfg (AuthUser uid) y = Some y' ∧
        ui y' = setIsLoading true (onAuthUser uid (ui y)) ∧
        subscription y' = Some (collectionPath cfg uid) ∧
        render (ui y') = LoadingView ∧
        ∀ es y1,
          Forall (λ e, keepsIdentity uid e = true ∧ isSnapshotEvent e = false) es →
          run cfg es y' = Some y1 →
          (∀ m', render (ui y1) ≠ MainView m') ∧
          ∀ docs y2, step cfg (SnapshotNext docs) y1 = Some y2 →
            (∀ m', render (ui y2) ≠ MainView m') ∨
            prompts (ui y2) ≡ₚ promptOf <$> docs.
Proof.
  intros Hi [h Ha] [h' Hd] Hm Hne Hn _.
  pose proof Hm as (uid0 & Hu0 & Hn0 & Hl0 & ->)%main_view_components.
  simpl in Hne.
  assert (Hu : userId (ui y) ≠ Some uid) by (rewrite Hu0; congruence).
  assert (Hr : ready (onAuthUser uid (ui y)) = Some uid).
  { unfold ready. simpl. by rewrite Hd, Hn. }
  assert (Hloading : ∀ s, isLoading s = true → ∀ m, render s ≠ MainView m).
  { intros s Hl m. unfold render, renderLibrary. rewrite Hl.
    destruct (error s) as [e|]; [destruct (nonempty e); [done|]|];
      by destruct (userId s). }
  assert (He : render (ui y) = renderLibrary (ui y)).
  { unfold render in *. destruct (error (ui y)) as [e|]; [|done].
    by destruct (nonempty e). }
  split; [done|]. split.
  { unfold render in *. simpl.
    destruct (error (ui y)) as [e|]; [destruct (nonempty e); [done|]|];
      unfold renderLibrary; simpl; by rewrite Hl0, Hn. }
  eexists. split.
  { unfold step. rewrite Ha. simpl. unfold commit.
    rewrite bool_decide_eq_false_2; [done|]. simpl. by intros [_ ?]. }
  unfold subscribe. rewrite Hr. simpl. split_and!; [done..| |].
  { unfold render in *. simpl.
    by destruct (error (ui y)) as [e|]; [destruct (nonempty e); [done|]|]. }
  intros es y1 Hes Hrun.
  apply (run_stays_loading cfg uid) in Hrun as (Hu1 & Hi1 & Hl1 & Hs1); [|done..].
  simpl in *. split; [by apply Hloading|].
  intros docs y2 H2. rewrite Hs1 in H2. simpl in H2.
  destruct (onSnapshotNext docs (ui y1)) as [s'|] eqn:E; simpl in H2.
  - right. apply onSnapshotNext_replaces in E as (Hp & _ & l & _ & ->).
    rewrite commit_same in H2 by done. by inversion H2; subst.
  - left. rewrite commit_same in H2 by done. inversion H2; subst. simpl.
    by apply Hloading.
Qed.

Lemma new_user_sees_previous_prompts_once_witness :
  render (ui (session [haiku])) = MainView haikuLibrary ∧
  render (onAuthUser "u2" (ui (session [haiku]))) =
    MainView {| shownUserId := "u2"; textareaValue := ""; textareaDisabled := false;
                addDisabled := true; rows := [PromptRow (promptOf haiku)] |} ∧
  ∃ y', step deployment (AuthUser "u2") (session [haiku]) = Some y' ∧
        subscription y' = Some "/artifacts/default-app-id/users/u2/prompts" ∧
        render (ui y') = LoadingView.
Proof.
  assert (Hm : render (ui (session [haiku])) = MainView haikuLibrary)
    by (vm_compute; reflexivity).
  destruct (new_user_sees_previous_prompts_once deployment (session [haiku]) "u2"
              haikuLibrary)
    as (_ & H1 & y' & H2 & _ & H3 & H4 & _).
  - vm_compute. reflexivity.
  - vm_compute. by eexists.
  - vm_compute. by eexists.
  - exact Hm.
  - vm_compute. discriminate.
  - reflexivity.
  - vm_compute. by eexists.
  - split; [exact Hm|]. split; [rewrite H1; vm_compute; reflexivity|].
    exists y'. split; [exact H2|]. split; [rewrite H3; vm_compute; reflexivity|].
    exact H4.
Defined.

(** ** The presented list *)

(** X16.  When the callback of a snapshot completes, the list is made of the
    prompts of the snapshot's documents, each one once and nothing of the
    list before; loading is over; every other piece of the state is
    untouched. *)
Theorem presented_list_is_the_snapshot (docs : list doc) (s s' : State) :
  onSnapshotNext docs s = Some s' →
  prompts s' ≡ₚ promptOf <$> docs ∧
  length (prompts s') = length docs ∧
  isLoading s' = false ∧
  setPrompts (prompts s) (setIsLoading (isLoading s) s') = s.
Proof.
  intros H. apply onSnapshotNext_replaces in H as (Hp & Hl & l & _ & ->).
  split_and!; [done| |done|by destruct s].
  by rewrite Hp, length_fmap.
Qed.

Lemma presented_list_is_the_snapshot_witness :
  prompts (ui (session [haiku; sonnet])) ≡ₚ promptOf <$> [haiku; sonnet] ∧
  length (prompts (ui (session [haiku; sonnet]))) = 2.
Proof.
  destruct (presented_list_is_the_snapshot [haiku; sonnet]
              (ui (default boot (run deployment [Mount true; AuthUser "u1"] boot)))
              (ui (session [haiku; sonnet])) ltac:(vm_compute; reflexivity))
    as (H1 & H2 & _).
  exact (conj H1 H2).
Defined.

(** ** The buttons of the library *)

Lemma main_view_ready cfg es y m :
  run cfg es boot = Some y → render (ui y) = MainView m →
  ready (ui y) = Some (shownUserId m).
Proof.
  intros Hrun Hr.
  assert (Hw : wired (ui y)).
  { apply (run_wired cfg es boot); [|done]. split; by intros [? ?]. }
  destruct Hw as [Hw1 Hw2].
  apply main_view_components in Hr as (uid & Hu & Hn & _ & ->). simpl.
  unfold ready. rewrite Hu, Hn.
  destruct (db (ui y)) eqn:Hd; [done|].
  destruct Hw2 as [? ?]; [|done]. apply Hw1. by rewrite Hu.
Qed.

(** X17.  The Delete button of a prompt, where Firestore takes the path of the
    document for a reference, issues the delete of the document named by
    the id of the prompt, in the collection of the user shown, and leaves
    the state as it is: the prompt stays on the screen until a snapshot
    without it arrives.  For a prompt whose id is falsy the button does
    nothing.  (An id that does not make a document path, one with a slash
    in it for instance, is refused by [doc] inside the [try]: that case is
    left out here.) *)
Theorem delete_button_issues_delete
    (cfg : config) (es : list event) (y : system) (promptId : value) :
  run cfg es boot = Some y →
  offered (render (ui y)) (DeletePrompt promptId) = true →
  (∀ uid, userId (ui y) = Some uid → truthy promptId = true →
          is_Some (docRef (docPath cfg uid promptId))) →
  ∃ m, render (ui y) = MainView m ∧
       step cfg (Act (DeletePrompt promptId)) y =
       Some {| ui := ui y; subscription := subscription y;
               inflight := inflight y ++
                 if truthy promptId
                 then [DeleteDoc (collectionPath cfg (shownUserId m) +:+ "/" +:+
                                  toString promptId)]
                 else [] |}.
Proof.
  intros Hrun Hoff _.
  assert (Hm : ∃ m, render (ui y) = MainView m).
  { destruct (render (ui y)) as [| |m]; try done. by exists m. }
  destruct Hm as [m Hr]. exists m. split; [done|].
  pose proof (main_view_ready cfg es y m Hrun Hr) as Hready.
  unfold step. rewrite Hoff. unfold act, handleDeletePrompt. rewrite Hready.
  destruct (truthy promptId); simpl.
  - rewrite commit_same by done. by rewrite docPath_collectionPath.
  - by rewrite commit_same.
Qed.

Lemma delete_button_issues_delete_witness :
  ∃ m, render (ui (session [haiku])) = MainView m ∧
       step deployment (Act (DeletePrompt (VStr "p1"))) (session [haiku]) =
       Some {| ui := ui (session [haiku]); subscription := subscription (session [haiku]);
               inflight := [DeleteDoc "/artifacts/default-app-id/users/u1/prompts/p1"] |}.
Proof.
  destruct (delete_button_issues_delete deployment
              [Mount true; AuthUser "u1"; SnapshotNext [haiku]] (session [haiku])
              (VStr "p1") ltac:(vm_compute; reflexivity) ltac:(vm_compute; reflexivity))
    as (m & Hr & Hs).
  - intros uid Hu _.
    assert (E : userId (ui (session [haiku])) = Some "u1") by (vm_compute; reflexivity).
    rewrite E in Hu. injection Hu as <-. vm_compute. by eexists.
  - exists m. split; [exact Hr|]. rewrite Hs.
    vm_compute in Hr. injection Hr as <-. vm_compute. reflexivity.
Defined.

(** ** An edit from start to end *)

Lemma offered_start_edit s m p :
  render s = MainView m → offered (MainView m) (StartEdit p) = true → p ∈ prompts s.
Proof.
  intros (uid & _ & _ & _ & ->)%main_view_components. simpl.
  induction (prompts s) as [|q l IH]; [done|].
  rewrite fmap_cons. cbn [existsb]. intros [H|H]%orb_true_iff.
  - unfold renderRow in H. destruct (strict_eq _ _); [done|]. simpl in H.
    apply bool_decide_eq_true in H as ->. by left.
  - right. by apply IH.
Qed.

Lemma edit_form_on_screen s (l : list object) p :
  p ∈ l → strict_eq (editingPromptId s) (get p "id") = true →
  existsb isEditForm (renderRow s <$> l) = true.
Proof.
  intros Hin He. induction l as [|q l IH]; [by apply elem_of_nil in Hin|].
  rewrite fmap_cons. cbn [existsb].
  apply elem_of_cons in Hin as [->|Hin].
  - unfold renderRow. by rewrite He.
  - rewrite IH by done. by rewrite orb_true_r.
Qed.

Lemma main_view_stays s s' m :
  error s' = error s → userId s' = userId s → isLoading s' = isLoading s →
  render s = MainView m →
  ∃ m', render s' = MainView m' ∧ rows m' = renderRow s' <$> prompts s'.
Proof.
  unfold render, renderLibrary. intros -> -> ->.
  destruct (error s) as [msg|]; [destruct (nonempty msg); [done|]|];
    (destruct (userId s) as [uid|]; [|done];
     destruct (_ || _); [done|]; intros _; by eexists).
Qed.

(** X18.  Pressing Edit on a prompt of truthy id, typing a text that is not
    blank, pressing Save and having the update succeed, where Firestore
    takes the path of the document for a reference: the update carries the
    id of the prompt and the text typed, and at the end the edit form is
    closed with an empty draft, while the rest of the state, the list of
    prompts included, is as it was before Edit was pressed.  (An id that
    does not make a document path is refused by [doc] inside the [try]:
    that case is left out here.) *)
Theorem edit_round_trip
    (cfg : config) (es : list event) (y : system) (p : object) (text : string) :
  run cfg es boot = Some y →
  offered (render (ui y)) (StartEdit p) = true →
  truthy (get p "id") = true → blank text = false →
  (∀ uid, userId (ui y) = Some uid → is_Some (docRef (docPath cfg uid (get p "id")))) →
  ∃ m y3 y4,
    render (ui y) = MainView m ∧
    run cfg [Act (StartEdit p); Act (TypeEdit text); Act SubmitUpdate] y = Some y3 ∧
    ui y3 = setEditingPromptText (VStr text) (setEditingPromptId (get p "id") (ui y)) ∧
    inflight y3 = inflight y ++
      [UpdateDoc (collectionPath cfg (shownUserId m) +:+ "/" +:+ toString (get p "id"))
         {[ "text" := DStr text ]}] ∧
    step cfg (Settled Update Resolved) y3 = Some y4 ∧
    ui y4 = setEditingPromptText (VStr "") (setEditingPromptId VNull (ui y)) ∧
    length (inflight y4) = length (inflight y).
Proof.
  intros Hrun Hoff Ht Hb _.
  assert (Hm : ∃ m, render (ui y) = MainView m).
  { destruct (render (ui y)) as [| |m]; try done. by exists m. }
  destruct Hm as [m Hr].
  pose proof (main_view_ready cfg es y m Hrun Hr) as Hready.
  assert (Hin : p ∈ prompts (ui y)).
  { apply (offered_start_edit _ m); [done|]. by rewrite <- Hr. }
  pose proof Hr as (uid & Hu & Hn & Hl & Hmv)%main_view_components.
  set (s1 := startEditing p (ui y)).
  set (s2 := setEditingPromptText (VStr text) s1).
  assert (Hform : ∀ s, error s = error (ui y) → userId s = userId (ui y) →
                       isLoading s = isLoading (ui y) → prompts s = prompts (ui y) →
                       editingPromptId s = get p "id" →
                       ∀ i, match i with TypeEdit _ | SubmitUpdate => True | _ => False end →
                            offered (render s) i = true).
  { intros s He Hus Hls Hps Hid i Hi.
    destruct (main_view_stays (ui y) s m He Hus Hls Hr) as (m' & -> & Hrows).
    assert (existsb isEditForm (rows m') = true).
    { rewrite Hrows, Hps. apply (edit_form_on_screen s _ p); [done|].
      rewrite Hid. apply strict_eq_refl. }
    by destruct i. }
  assert (Hupd : handleUpdatePrompt cfg s2 =
                 Awaiting s2 (UpdateDoc (docPath cfg (shownUserId m) (get p "id"))
                                {[ "text" := DStr text ]})).
  { unfold handleUpdatePrompt. simpl. rewrite nonempty_trim, Hb. simpl.
    change (ready s2) with (ready (ui y)). by rewrite Hready, Ht. }
  exists m,
    {| ui := s2; subscription := subscription y;
       inflight := inflight y ++
         [UpdateDoc (docPath cfg (shownUserId m) (get p "id")) {[ "text" := DStr text ]}] |}.
  assert (Htake : ∃ rest, takeRequest Update
                    (inflight y ++
                     [UpdateDoc (docPath cfg (shownUserId m) (get p "id"))
                        {[ "text" := DStr text ]}]) = Some rest ∧
                    length rest = length (inflight y)).
  { clear. induction (inflight y) as [|r l (rest & IH & Hlen)];
      [eexists; split; reflexivity|].
    rewrite <- app_comm_cons. cbn [takeRequest].
    destruct (sameKind Update r).
    - eexists. split; [reflexivity|]. rewrite length_app. simpl. lia.
    - rewrite IH. simpl. eexists. split; [reflexivity|]. simpl. by rewrite Hlen. }
  destruct Htake as (rest & Htake & Hlen).
  exists {| ui := updateSettled Resolved s2; subscription := subscription y;
            inflight := rest |}.
  split_and!; try done.
  - simpl. rewrite Hoff. simpl. rewrite commit_same by done. simpl.
    rewrite (Hform s1) by done. simpl. rewrite commit_same by done. simpl.
    rewrite (Hform s2) by done. simpl. fold s1 s2. rewrite Hupd. simpl.
    rewrite commit_same by done. simpl. by rewrite !app_nil_r.
  - by rewrite docPath_collectionPath.
  - simpl. by rewrite Htake.
Qed.

Lemma edit_round_trip_witness :
  ∃ m y3 y4,
    render (ui (session [haiku])) = MainView m ∧
    run deployment
      [Act (StartEdit (promptOf haiku)); Act (TypeEdit "Write a limerick"); Act SubmitUpdate]
      (session [haiku]) = Some y3 ∧
    inflight y3 = [UpdateDoc "/artifacts/default-app-id/users/u1/prompts/p1"
                     {[ "text" := DStr "Write a limerick" ]}] ∧
    step deployment (Settled Update Resolved) y3 = Some y4 ∧
    ui y4 = ui (session [haiku]).
Proof.
  destruct (edit_round_trip deployment [Mount true; AuthUser "u1"; SnapshotNext [haiku]]
              (session [haiku]) (promptOf haiku) "Write a limerick"
              ltac:(vm_compute; reflexivity) ltac:(vm_compute; reflexivity)
              ltac:(vm_compute; reflexivity) ltac:(vm_compute; reflexivity))
    as (m & y3 & y4 & Hr & Hrun & _ & Hin & Hst & Hui & _).
  - intros uid Hu.
    assert (E : userId (ui (session [haiku])) = Some "u1") by (vm_compute; reflexivity).
    rewrite E in Hu. injection Hu as <-. vm_compute. by eexists.
  - exists m, y3, y4. split_and!; [exact Hr|exact Hrun| |exact Hst|].
    + rewrite Hin. vm_compute in Hr. injection Hr as <-. vm_compute. reflexivity.
    + rewrite Hui. vm_compute. reflexivity.
Defined.

(** ** From the first render to the library *)



